(** * PyNN / NEST backend: reflection of native models and session control

    A shallow embedding of [pyNN/nest/cells.py] and of the session
    functions of [pyNN/nest/__init__.py] (Python 3), with the properties
    of the specification proved against it.

    Python objects are modelled by the inductive [value]; exceptions by
    [exn]; code that emits warnings, mutates [simulator.state] or calls
    the engine runs in the state-and-exception monad [M]. *)

From Stdlib Require Import Floats.PrimFloat.
From stdpp Require Import gmap strings list fin_maps.

Open Scope string_scope.
Open Scope list_scope.
Set Warnings "-register-all,-inexact-float".

(** ** Python values *)

(** The objects PyNEST hands back from [nest.GetDefaults] (SLI data
    converted to Python), together with [pyNN.parameters.Sequence]. *)
Inductive value : Type :=
| VNone
| VBool (b : bool)
| VInt (n : Z)
| VFloat (x : float)
| VStr (s : string)
| VTuple (items : list value)
| VList (items : list value)
| VDict (items : list (string * value))
| VSequence (items : list float)
| VNdarray (items : list float).

(** A Python [dict] with string keys, as the list of its [items()] in
    iteration order. *)
Abbreviation dict := (list (string * value)).

(** [k in d] and [d.get(k)] for string-keyed dictionaries. *)
Fixpoint dict_get {A : Type} (d : list (string * A)) (k : string) : option A :=
  match d with
  | [] => None
  | (k', v) :: rest => if String.eqb k' k then Some v else dict_get rest k
  end.

Definition dict_has {A : Type} (d : list (string * A)) (k : string) : bool :=
  match dict_get d k with Some _ => true | None => false end.

Definition dict_keys {A : Type} (d : list (string * A)) : list string := d.*1.


(** [repr(type(v))]. *)
Definition type_repr (v : value) : string :=
  match v with
  | VNone => "<class 'NoneType'>"
  | VBool _ => "<class 'bool'>"
  | VInt _ => "<class 'int'>"
  | VFloat _ => "<class 'float'>"
  | VStr _ => "<class 'str'>"
  | VTuple _ => "<class 'tuple'>"
  | VList _ => "<class 'list'>"
  | VDict _ => "<class 'dict'>"
  | VSequence _ => "<class 'pyNN.parameters.Sequence'>"
  | VNdarray _ => "<class 'numpy.ndarray'>"
  end.

(** [type(v).__name__], as it appears in error messages. *)
Definition type_name (v : value) : string :=
  match v with
  | VNone => "NoneType"
  | VBool _ => "bool"
  | VInt _ => "int"
  | VFloat _ => "float"
  | VStr _ => "str"
  | VTuple _ => "tuple"
  | VList _ => "list"
  | VDict _ => "dict"
  | VSequence _ => "Sequence"
  | VNdarray _ => "numpy.ndarray"
  end.

(** ** Exceptions and the monad *)

Inductive exn : Type :=
| NESTError (msg : string)
| AttributeError (msg : string)
| TypeError (msg : string)
| IndexError (msg : string)
| KeyError (msg : string)
| ValueError (msg : string)
| OtherException (msg : string).

Inductive outcome (A : Type) : Type :=
| Ok (a : A)
| Raise (e : exn).
Arguments Ok {A} a.
Arguments Raise {A} e.

(** A computation over a mutable store [S]: the store survives a raise,
    as Python's does. *)
Definition M (S A : Type) : Type := S -> outcome A * S.

Definition ret {S A} (a : A) : M S A := fun s => (Ok a, s).

Definition bind {S A B} (m : M S A) (k : A -> M S B) : M S B :=
  fun s => match m s with
           | (Ok a, s') => k a s'
           | (Raise e, s') => (Raise e, s')
           end.

Definition lift {S A} (o : outcome A) : M S A := fun s => (o, s).

Definition gets {S A} (f : S -> A) : M S A := fun s => (Ok (f s), s).

Definition modify {S} (f : S -> S) : M S unit := fun s => (Ok tt, f s).

Notation "'do' x <- m ; k" := (bind m (fun x => k))
  (at level 10, x name, m at level 100, k at level 200).
Notation "'do' ' pat <- m ; k" := (bind m (fun x => match x with pat => k end))
  (at level 10, pat pattern, m at level 100, k at level 200).
Notation "'run' m ; k" := (bind m (fun _ => k))
  (at level 10, m at level 100, k at level 200).

(** ** Python operators on values *)

Definition is_str (name : string) (v : value) : bool :=
  match v with VStr s => String.eqb s name | _ => false end.

Definition is_substring (needle hay : string) : bool :=
  match String.index 0 needle hay with Some _ => true | None => false end.

(** [name in container], for a string [name]. *)
Definition py_contains (container : value) (name : string) : outcome bool :=
  match container with
  | VTuple items | VList items => Ok (existsb (is_str name) items)
  | VDict items => Ok (dict_has items name)
  | VStr s => Ok (is_substring name s)
  | VNdarray _ => Ok false
  | _ => Raise (TypeError ("argument of type '" +:+ type_name container +:+ "' is not iterable"))
  end.

(** The characters of a string, each as a string of length one. *)
Fixpoint chars (s : string) : list string :=
  match s with
  | EmptyString => []
  | String c rest => String c EmptyString :: chars rest
  end.

(** [list(v)]. *)
Definition py_list (v : value) : outcome (list value) :=
  match v with
  | VTuple items | VList items => Ok items
  | VDict items => Ok (VStr <$> dict_keys items)
  | VStr s => Ok (VStr <$> chars s)
  | VNdarray xs => Ok (VFloat <$> xs)
  | _ => Raise (TypeError ("'" +:+ type_name v +:+ "' object is not iterable"))
  end.

(** [v[0]]. *)
Definition py_getitem0 (v : value) : outcome value :=
  match v with
  | VTuple (x :: _) | VList (x :: _) => Ok x
  | VTuple [] => Raise (IndexError "tuple index out of range")
  | VList [] => Raise (IndexError "list index out of range")
  | VStr (String c _) => Ok (VStr (String c EmptyString))
  | VStr EmptyString => Raise (IndexError "string index out of range")
  | VNdarray (x :: _) => Ok (VFloat x)
  | VNdarray [] => Raise (IndexError "index 0 is out of bounds for axis 0 with size 0")
  | VDict _ => Raise (KeyError "0")
  | _ => Raise (TypeError ("'" +:+ type_name v +:+ "' object is not subscriptable"))
  end.

(** Truth value of an object, as [or] and [if] test it. A numpy array
    of one element has the truth value of the element; an array of
    several elements has none, and asking for it raises, as it does for
    an empty array from numpy 2.2 on (older versions answered [False]
    with a deprecation warning). *)
Definition py_truthy (v : value) : outcome bool :=
  match v with
  | VNone => Ok false
  | VBool b => Ok b
  | VInt n => Ok (negb (n =? 0)%Z)
  | VFloat x => Ok (negb (PrimFloat.eqb x 0%float))
  | VStr s => Ok (negb (String.eqb s ""))
  | VTuple items | VList items => Ok (negb (Nat.eqb (length items) 0))
  | VDict items => Ok (negb (Nat.eqb (length items) 0))
  | VSequence _ => Ok true
  | VNdarray [] =>
      Raise (ValueError
        "The truth value of an empty array is ambiguous. Use `array.size > 0` to check that an array is not empty.")
  | VNdarray [x] => Ok (negb (PrimFloat.eqb x 0%float))
  | VNdarray _ =>
      Raise (ValueError
        "The truth value of an array with more than one element is ambiguous. Use a.any() or a.all()")
  end.

(** [warnings.warn(msg)] on a store that is the list of emitted warnings. *)
Definition warn (msg : string) : M (list string) unit :=
  modify (fun emitted => emitted ++ [msg]).

(** [try: m  except nest.NESTError: handler]. *)
Definition except_NESTError {S A} (m : M S A) (handler : M S A) : M S A :=
  fun s => match m s with
           | (Raise (NESTError _), s') => handler s'
           | r => r
           end.

(** * pyNN/nest/cells.py *)

Definition UNITS_MAP : gmap string string :=
  <["I_syn_in" := "pA"]> (<["I_syn_ex" := "pA"]> (<["V_m" := "mV"]> (<["spikes" := "ms"]> ∅))).

(** The names [get_defaults] never reports as parameters. *)
Definition ignore : list string :=
  ["archiver_length"; "available"; "Ca"; "capacity"; "elementsize";
   "frozen"; "instantiations"; "local"; "model"; "needs_prelim_update";
   "recordables"; "state"; "t_spike"; "tau_minus"; "tau_minus_triplet";
   "thread"; "vp"; "receptor_types"; "events"; "global_id";
   "element_type"; "type"; "type_id"; "has_connections"; "n_synapses";
   "thread_local_id"; "node_uses_wfr"; "supports_precise_spikes";
   "synaptic_elements"; "y_0"; "y_1"; "allow_offgrid_spikes"; "shift_now_spikes"; "post_trace"].

(** [isinstance(value, (int, float, Sequence, np.ndarray))]; [bool] is a
    subclass of [int]. *)
Definition isinstance_valid_types (v : value) : bool :=
  match v with
  | VBool _ | VInt _ | VFloat _ | VSequence _ | VNdarray _ => true
  | _ => false
  end.

Definition ignoring_parameter (name : string) (v : value) : string :=
  "Ignoring parameter '" +:+ name +:+ "' since PyNN does not support " +:+ type_repr v.

(** The class object [native_cell_type] builds, as the record of its
    attributes. *)
Record NativeCellType : Type := {
  nest_model : string;
  default_parameters : gmap string value;
  default_initial_values : gmap string value;
  receptor_types : list value;
  injectable : bool;
  recordable : list string;
  units : gmap string string;
  standard_receptor_type : bool;
  nest_name : gmap string string;
  conductance_based : bool;
  always_local : bool;
  uses_parrot : bool
}.

(** [dict((var, UNITS_MAP.get(var, 'unknown')) for var in recordable)]:
    a later pair overwrites an earlier one with the same key. *)
Definition units_of (recordable : list string) : gmap string string :=
  foldl (fun m var => <[var := default "unknown" (UNITS_MAP !! var)]> m) ∅ recordable.

(** ["g" in (s[0] for s in recordable)]: the generator is consumed up to
    the first hit, and [s[0]] raises on an empty name. *)
Fixpoint g_in_first_letters (recordable : list string) : outcome bool :=
  match recordable with
  | [] => Ok false
  | EmptyString :: _ => Raise (IndexError "string index out of range")
  | String c _ :: rest =>
      if String.eqb (String c EmptyString) "g" then Ok true else g_in_first_letters rest
  end.

(** [receptor_types == ['excitatory', 'inhibitory']]. *)
Definition is_standard_receptors (receptor_types : list value) : bool :=
  match receptor_types with
  | [VStr a; VStr b] => String.eqb a "excitatory" && String.eqb b "inhibitory"
  | _ => false
  end.

Section Cells.

(** The engine, as PyNEST exposes it: [nest.GetDefaults(model)],
    [nest.GetDefaults(model, "recordables")] (a tuple of names) and
    [nest.GetDefaults(model, 'element_type')] (a name). Each may raise. *)
Variable nest_GetDefaults : string -> outcome dict.
Variable nest_GetDefaults_recordables : string -> outcome (list string).
Variable nest_GetDefaults_element_type : string -> outcome string.

(** [conversion.make_pynn_compatible], from a module outside this file. *)
Variable make_pynn_compatible : value -> value.

(** The body of [for name, value in defaults.items()], with the two
    dictionaries under construction. *)
Fixpoint get_defaults_loop (variables : value) (items : dict)
    (default_params default_initial_values : gmap string value)
    : M (list string) (gmap string value * gmap string value) :=
  match items with
  | [] => ret (default_params, default_initial_values)
  | (name, value) :: rest =>
      do is_variable <- lift (py_contains variables name);
      if is_variable then
        get_defaults_loop variables rest default_params (<[name := value]> default_initial_values)
      else if bool_decide (name ∉ ignore) then
        if isinstance_valid_types value then
          get_defaults_loop variables rest
            (<[name := make_pynn_compatible value]> default_params) default_initial_values
        else
          run warn (ignoring_parameter name value);
          get_defaults_loop variables rest default_params default_initial_values
      else
        get_defaults_loop variables rest default_params default_initial_values
  end.

Definition get_defaults (model_name : string)
    : M (list string) (gmap string value * gmap string value) :=
  do defaults <- lift (nest_GetDefaults model_name);
  let variables := default (VList []) (dict_get defaults "recordables") in
  get_defaults_loop variables defaults ∅ ∅.

Definition get_receptor_types (model_name : string) : M (list string) (list value) :=
  do defaults <- lift (nest_GetDefaults model_name);
  lift (py_list (default (VTuple [VStr "excitatory"; VStr "inhibitory"])
                         (dict_get defaults "receptor_types"))).

Definition get_recordables (model_name : string) : M (list string) (list string) :=
  except_NESTError
    (do names <- lift (nest_GetDefaults_recordables model_name);
     ret names)
    (ret []).

Definition native_cell_type (model_name : string) : M (list string) NativeCellType :=
  do '(default_parameters, default_initial_values) <- get_defaults model_name;
  do receptor_types <- get_receptor_types model_name;
  do reported <- get_recordables model_name;
  let recordable := reported ++ ["spikes"] in
  do element_type <- lift (nest_GetDefaults_element_type model_name);
  do conductance_based <- lift (g_in_first_letters recordable);
  ret {| nest_model := model_name;
         default_parameters := default_parameters;
         default_initial_values := default_initial_values;
         receptor_types := receptor_types;
         injectable := bool_decide (is_Some (default_initial_values !! "V_m"));
         recordable := recordable;
         units := units_of recordable;
         standard_receptor_type := is_standard_receptors receptor_types;
         nest_name := <["off_grid" := model_name]> (<["on_grid" := model_name]> ∅);
         conductance_based := conductance_based;
         always_local := String.eqb element_type "stimulator";
         uses_parrot := String.eqb element_type "stimulator" |}.

End Cells.

(** * pyNN/nest/__init__.py *)

(** [for x in xs: body(x)]. *)
Fixpoint for_each {S A} (xs : list A) (body : A -> M S unit) : M S unit :=
  match xs with
  | [] => ret tt
  | x :: rest => run body x; for_each rest body
  end.

(** [d[k]]. *)
Definition dict_getitem (d : dict) (k : string) : outcome value :=
  match dict_get d k with
  | Some v => Ok v
  | None => Raise (KeyError k)
  end.

(** [a or b], for a [b] whose evaluation cannot fail. *)
Definition py_or (a b : value) : outcome value :=
  match py_truthy a with
  | Ok true => Ok a
  | Ok false => Ok b
  | Raise e => Raise e
  end.

(** What [_discrepancy_due_to_rounding] is handed as [output_values]: one
    number, or an object with [__len__] holding several. *)
Inductive output_values : Type :=
| Scalar (x : float)
| Several (xs : list float).

(** [parameters.keys().index(k)] depends on the interpreter. Under
    Python 3, which the NEST 3 bindings this module imports require,
    [keys()] is a view that has no [index] attribute. *)
Definition dict_keys_index (keys : list string) (k : string) : outcome nat :=
  Raise (AttributeError "'dict_keys' object has no attribute 'index'").

(** Under Python 2 [keys()] was a list, and [index] the position of the
    first occurrence. *)
Fixpoint list_index (keys : list string) (k : string) : outcome nat :=
  match keys with
  | [] => Raise (ValueError (k +:+ " is not in list"))
  | k' :: rest =>
      if String.eqb k' k then Ok 0
      else match list_index rest k with
           | Ok i => Ok (S i)
           | Raise e => Raise e
           end
  end.

(** [xs[i]] on a sequence of numbers. *)
Definition seq_getitem (xs : list float) (i : nat) : outcome float :=
  match xs !! i with
  | Some x => Ok x
  | None => Raise (IndexError "index out of range")
  end.

Section Session.

(** Collaborators from outside this file: populations with their
    [label], the Neo IO handlers, and whatever [write_data] and
    [shutil.rmtree] act on. *)
Variable Population : Type.
Variable label : Population -> string.
Variable IO : Type.
Variable World : Type.

(** A pending write: [(population, variables, filename)]. *)
Definition pending_write : Type := Population * value * string.

(** [simulator.state]: the attributes assigned on it, under their
    names, and the two lists that [end] works through. The time step is
    kept as the number that [setup] is handed. *)
Record State : Type := {
  attrs : gmap string value;
  dt : float;
  tempdirs : list string;
  write_on_end : list pending_write
}.

(** Modelled from the spec: the class of [simulator.state] is not in this
    file; [setup] "validates and applies" the options to the session, so an
    assignment that the object accepts leaves the attribute holding the
    value. *)
Definition store (name : string) (v : value) (st : State) : State :=
  {| attrs := <[name := v]> (attrs st); dt := dt st;
     tempdirs := tempdirs st; write_on_end := write_on_end st |}.

Definition store_dt (x : float) (st : State) : State :=
  {| attrs := attrs st; dt := x;
     tempdirs := tempdirs st; write_on_end := write_on_end st |}.

Definition set_tempdirs (dirs : list string) (st : State) : State :=
  {| attrs := attrs st; dt := dt st;
     tempdirs := dirs; write_on_end := write_on_end st |}.

Definition set_write_on_end (pending : list pending_write) (st : State) : State :=
  {| attrs := attrs st; dt := dt st;
     tempdirs := tempdirs st; write_on_end := pending |}.

(** A completed call that left the process. *)
Inductive effect : Type :=
| Wrote (population : Population) (variables : value) (filename : string)
| Removed (tempdir : string)
| SetDefaults (model : string) (params : dict).

(** Everything the functions of this module can touch.
    [warnings_emitted] and [effects] record what the module's own calls
    of [warnings.warn], [write_data], [shutil.rmtree] and
    [nest.SetDefaults] do; what [simulator.state] does to the kernel
    shows in [world] only. *)
Record Process : Type := {
  simulator_state : State;
  warnings_emitted : list string;
  debug_log : list string;
  effects : list effect;
  world : World
}.

Definition on_state (f : State -> State) (p : Process) : Process :=
  {| simulator_state := f (simulator_state p);
     warnings_emitted := warnings_emitted p; debug_log := debug_log p;
     effects := effects p; world := world p |}.

Definition assign (f : State -> State) : M Process unit := modify (on_state f).

Definition warnings_warn (msg : string) : M Process unit :=
  modify (fun p =>
    {| simulator_state := simulator_state p;
       warnings_emitted := warnings_emitted p ++ [msg]; debug_log := debug_log p;
       effects := effects p; world := world p |}).

Definition logger_debug (msg : string) : M Process unit :=
  modify (fun p =>
    {| simulator_state := simulator_state p;
       warnings_emitted := warnings_emitted p; debug_log := debug_log p ++ [msg];
       effects := effects p; world := world p |}).

(** An external call: it acts on the world and may raise; when it
    returns, [done_ a] is appended to the effects. *)
Definition external {A} (call : World -> outcome A * World) (done_ : A -> list effect)
    : M Process A :=
  fun p =>
    let '(r, w) := call (world p) in
    (r, {| simulator_state := simulator_state p;
           warnings_emitted := warnings_emitted p; debug_log := debug_log p;
           effects := effects p ++ match r with Ok a => done_ a | Raise _ => [] end;
           world := w |}).

(** From [pyNN.common], [pyNN.recording], [shutil], [simulator] and
    Python itself. [clear] is [simulator.state.clear], which resets the
    kernel. *)
Variable DEFAULT_MAX_DELAY : value.
Variable common_setup : float -> value -> dict -> outcome unit.
Variable clear : State -> World -> outcome State * World.
Variable mpi_rank : State -> value.
Variable py_str : value -> string.
Variable recording_get_io : string -> World -> outcome IO * World.
Variable write_data : Population -> IO -> value -> World -> outcome unit * World.
Variable shutil_rmtree : string -> World -> outcome unit * World.
Variable nest_SetDefaults : string -> dict -> World -> outcome unit * World.

(** What [simulator.state] does with an assignment to the attribute
    [name], or with a call of the method [name], before it takes effect:
    the setters check the value and hand it to the NEST kernel, and
    either may raise. *)
Variable state_check : string -> list value -> State -> World -> outcome unit * World.

(** An assignment or a call on [simulator.state]: when the object
    raises, the session is as it was. *)
Definition state_call (name : string) (args : list value) (apply : State -> State)
    : M Process unit :=
  fun p =>
    let '(r, w) := state_check name args (simulator_state p) (world p) in
    (r, {| simulator_state := match r with
                              | Ok _ => apply (simulator_state p)
                              | Raise _ => simulator_state p
                              end;
           warnings_emitted := warnings_emitted p; debug_log := debug_log p;
           effects := effects p; world := w |}).

(** [setattr(simulator.state, name, v)] and [simulator.state.name = v]. *)
Definition setattr (name : string) (v : value) : M Process unit :=
  state_call name [v] (store name v).

(** [simulator.state.dt = timestep]. *)
Definition assign_dt (timestep : float) : M Process unit :=
  state_call "dt" [VFloat timestep] (store_dt timestep).

(** Modelled from the spec: [simulator.state.set_delays] "applies ... delay
    bounds to the session". *)
Definition set_delays (lo hi : value) : M Process unit :=
  state_call "set_delays" [lo; hi] (fun st => store "max_delay" hi (store "min_delay" lo st)).

(** [simulator.state.clear()]. *)
Definition state_clear : M Process unit :=
  fun p =>
    let '(r, w) := clear (simulator_state p) (world p) in
    match r with
    | Ok st =>
        (Ok tt, {| simulator_state := st;
                   warnings_emitted := warnings_emitted p; debug_log := debug_log p;
                   effects := effects p; world := w |})
    | Raise e =>
        (Raise e, {| simulator_state := simulator_state p;
                     warnings_emitted := warnings_emitted p; debug_log := debug_log p;
                     effects := effects p; world := w |})
    end.

(** Modelled from the spec: the state queries come from
    [common.build_state_queries], not in this file; they "are pure reads of
    session state". *)
Definition get_time_step : M Process float := gets (fun p => dt (simulator_state p)).
Definition rank : M Process value := gets (fun p => mpi_rank (simulator_state p)).

(** The [index] attribute of what [keys()] returns: [dict_keys_index]
    or, historically, [list_index]. *)
Variable keys_index : list string -> string -> outcome nat.

Definition _discrepancy_due_to_rounding (parameters : list (string * float))
    (output : output_values) : M Process bool :=
  match dict_get parameters "delay" with
  | None => ret false
  | Some input_delay =>
      do output_delay <-
        match output with
        | Several xs =>
            do i <- lift (keys_index (dict_keys parameters) "delay");
            lift (seq_getitem xs i)
        | Scalar x => ret x
        end;
      do timestep <- get_time_step;
      ret (PrimFloat.ltb (PrimFloat.abs (PrimFloat.sub input_delay output_delay)) timestep)
  end.

Definition rng_seeds_warning : string :=
  "The setup argument 'rng_seeds' is no longer available. Taking the first value for the global seed.".

Definition setup (timestep : float) (min_delay : value) (extra_params : dict)
    : M Process value :=
  let max_delay := default DEFAULT_MAX_DELAY (dict_get extra_params "max_delay") in
  run lift (common_setup timestep min_delay extra_params);
  run state_clear;
  run for_each ["threads"; "verbosity"; "spike_precision"; "recording_precision"]
        (fun key =>
           if dict_has extra_params key then
             do v <- lift (dict_getitem extra_params key);
             setattr key v
           else ret tt);
  do threads <- lift (py_or (default VNone (dict_get extra_params "threads")) (VInt 1));
  run setattr "num_threads" threads;
  run (if dict_has extra_params "grng_seed" then
         run warnings_warn "The setup argument 'grng_seed' is now 'rng_seed'";
         do v <- lift (dict_getitem extra_params "grng_seed");
         setattr "rng_seed" v
       else ret tt);
  run (if dict_has extra_params "rng_seeds" then
         run warnings_warn rng_seeds_warning;
         do seeds <- lift (dict_getitem extra_params "rng_seeds");
         do v <- lift (py_getitem0 seeds);
         setattr "rng_seed" v
       else ret tt);
  run (if dict_has extra_params "rng_seeds_seed" then
         run warnings_warn "The setup argument 'rng_seeds_seed' is now 'rng_seed'";
         do v <- lift (dict_getitem extra_params "rng_seeds_seed");
         setattr "rng_seed" v
       else
         setattr "rng_seed" (default (VInt 42) (dict_get extra_params "rng_seed")));
  run (if dict_has extra_params "t_flush" then
         do v <- lift (dict_getitem extra_params "t_flush");
         setattr "t_flush" v
       else ret tt);
  run assign_dt timestep;
  run set_delays min_delay max_delay;
  run external (nest_SetDefaults "spike_generator" [("precise_times", VBool true)])
        (fun _ => [SetDefaults "spike_generator" [("precise_times", VBool true)]]);
  rank.

Definition end_ : M Process unit :=
  do pending <- gets (fun p => write_on_end (simulator_state p));
  run for_each pending
        (fun '(population, variables, filename) =>
           run logger_debug (label population +:+ py_str variables +:+ " --> " +:+ filename);
           do io <- external (recording_get_io filename) (fun _ => []);
           external (write_data population io variables)
                    (fun _ => [Wrote population variables filename]));
  do dirs <- gets (fun p => tempdirs (simulator_state p));
  run for_each dirs (fun tempdir => external (shutil_rmtree tempdir) (fun _ => [Removed tempdir]));
  run assign (set_tempdirs []);
  assign (set_write_on_end []).

(** ** What [end] asks of its collaborators *)

(** The world after the writes of the first loop, or the exception
    that stops it. *)
Fixpoint world_after_writes (pending : list pending_write) (w : World) : outcome World :=
  match pending with
  | [] => Ok w
  | (population, variables, filename) :: rest =>
      match recording_get_io filename w with
      | (Ok io, w1) =>
          match write_data population io variables w1 with
          | (Ok _, w2) => world_after_writes rest w2
          | (Raise e, _) => Raise e
          end
      | (Raise e, _) => Raise e
      end
  end.

(** The world after the removals of the second loop, or the exception
    that stops it. *)
Fixpoint world_after_removals (dirs : list string) (w : World) : outcome World :=
  match dirs with
  | [] => Ok w
  | tempdir :: rest =>
      match shutil_rmtree tempdir w with
      | (Ok _, w1) => world_after_removals rest w1
      | (Raise e, _) => Raise e
      end
  end.

(** One [Wrote] per pending tuple, one [Removed] per directory, one
    debug line per pending tuple. *)
Definition writes_of (pending : list pending_write) : list effect :=
  (fun '(population, variables, filename) => Wrote population variables filename) <$> pending.

Definition removals_of (dirs : list string) : list effect := Removed <$> dirs.

Definition debug_lines (pending : list pending_write) : list string :=
  (fun '(population, variables, filename) =>
     label population +:+ py_str variables +:+ " --> " +:+ filename) <$> pending.

(** The process a complete [end] leaves behind. *)
Definition ended (p : Process) (w : World) : Process :=
  {| simulator_state := set_write_on_end [] (set_tempdirs [] (simulator_state p));
     warnings_emitted := warnings_emitted p;
     debug_log := debug_log p ++ debug_lines (write_on_end (simulator_state p));
     effects := effects p ++ writes_of (write_on_end (simulator_state p))
                          ++ removals_of (tempdirs (simulator_state p));
     world := w |}.

(** ** What [setup] decides about the seed *)

(** The warnings of the three deprecated seed options, in the order
    [setup] tests them. *)
Definition seed_warnings (extra_params : dict) : list string :=
  (if dict_has extra_params "grng_seed"
   then ["The setup argument 'grng_seed' is now 'rng_seed'"] else [])
  ++ (if dict_has extra_params "rng_seeds" then [rng_seeds_warning] else [])
  ++ (if dict_has extra_params "rng_seeds_seed"
      then ["The setup argument 'rng_seeds_seed' is now 'rng_seed'"] else []).

(** The last assignment to [rng_seed] is the one of the final
    [if]/[else]. *)
Definition resolved_seed (extra_params : dict) : value :=
  match dict_get extra_params "rng_seeds_seed" with
  | Some v => v
  | None => default (VInt 42) (dict_get extra_params "rng_seed")
  end.

End Session.

Arguments attrs {Population} _.
Arguments dt {Population} _.
Arguments tempdirs {Population} _.
Arguments write_on_end {Population} _.
Arguments store {Population} _ _ _.
Arguments store_dt {Population} _ _.
Arguments set_tempdirs {Population} _ _.
Arguments set_write_on_end {Population} _ _.
Arguments Wrote {Population} _ _ _.
Arguments Removed {Population} _.
Arguments SetDefaults {Population} _ _.
Arguments simulator_state {Population World} _.
Arguments warnings_emitted {Population World} _.
Arguments debug_log {Population World} _.
Arguments effects {Population World} _.
Arguments world {Population World} _.
Arguments on_state {Population World} _ _.
Arguments writes_of {Population} _.
Arguments removals_of {Population} _.
Arguments assign {Population World} _ _.
Arguments warnings_warn {Population World} _ _.
Arguments logger_debug {Population World} _ _.
Arguments external {Population World A} _ _ _.
Arguments rank {Population World} _ _.
Arguments state_call {Population World} _ _ _ _ _.
Arguments setattr {Population World} _ _ _ _.
Arguments assign_dt {Population World} _ _ _.
Arguments set_delays {Population World} _ _ _ _.
Arguments state_clear {Population World} _ _.
Arguments debug_lines {Population} _ _ _.
Arguments world_after_writes {Population IO World} _ _ _ _.
Arguments world_after_removals {World} _ _ _.
Arguments ended {Population} _ {World} _ _ _.
Arguments get_time_step {Population World} _.
Arguments _discrepancy_due_to_rounding {Population World} _ _ _ _.
Arguments setup {Population World} _ _ _ _ _ _ _ _ _ _.
Arguments end_ {Population} _ {IO World} _ _ _ _ _.

(** * The rest of the two modules *)

(** [container[key]] for a string [key]. *)
Definition py_getitem_str (container : value) (key : string) : outcome value :=
  match container with
  | VDict items =>
      match dict_get items key with
      | Some v => Ok v
      | None => Raise (KeyError key)
      end
  | VTuple _ => Raise (TypeError "tuple indices must be integers or slices, not str")
  | VList _ => Raise (TypeError "list indices must be integers or slices, not str")
  | VStr _ => Raise (TypeError "string indices must be integers")
  | VNdarray _ => Raise (IndexError "only integers, slices and arrays are valid indices")
  | _ => Raise (TypeError ("'" +:+ type_name container +:+ "' object is not subscriptable"))
  end.

(** [try: m  except Exception as e: handler(e)]. *)
Definition except_Exception {S A} (m : M S A) (handler : exn -> M S A) : M S A :=
  fun s => match m s with
           | (Raise e, s') => handler e s'
           | r => r
           end.

Section CellMethods.

Variable nest_GetDefaults : string -> outcome dict.

(** [NativeCellType.get_receptor_type(self, name)]. *)
Definition get_receptor_type (self : NativeCellType) (name : string)
    : M (list string) value :=
  do defaults <- lift (nest_GetDefaults (nest_model self));
  do receptors <- lift (dict_getitem defaults "receptor_types");
  lift (py_getitem_str receptors name).

End CellMethods.

Section StandardModels.

(** The classes found in [globals()], with their [__name__]; what
    [create(cell_class())] does to the engine; [str(e)]. *)
Variable CellClass : Type.
Context `{EqDecision CellClass}.
Variable class_name : CellClass -> string.
Variable World : Type.
Variable create_instance : CellClass -> World -> outcome unit * World.
Variable exn_str : exn -> string.

(** What [list_standard_models] acts on: the standard output and the
    engine. *)
Record Console : Type := {
  printed : list string;
  engine : World
}.

Definition print (line : string) : M Console unit :=
  modify (fun c => {| printed := printed c ++ [line]; engine := engine c |}).

Definition create (cell_class : CellClass) : M Console unit :=
  fun c =>
    let '(r, w) := create_instance cell_class (engine c) in
    (r, {| printed := printed c; engine := w |}).

(** [l.remove(x)]: the first occurrence goes, [ValueError] without one. *)
Fixpoint list_remove (x : CellClass) (l : list CellClass) : outcome (list CellClass) :=
  match l with
  | [] => Raise (ValueError "list.remove(x): x not in list")
  | y :: rest =>
      if decide (y = x) then Ok rest
      else match list_remove x rest with
           | Ok rest' => Ok (y :: rest')
           | Raise e => Raise e
           end
  end.

Definition not_creatable (cell_class : CellClass) (e : exn) : string :=
  "Warning: " +:+ class_name cell_class
    +:+ " is defined, but produces the following error: " +:+ exn_str e.

(** [for cell_class in standard_cell_types: ...], on the list the body
    mutates: the iterator is the index [i] into the current list, and
    the loop ends when [i] is past its end. [fuel] bounds the number of
    iterations. *)
Fixpoint list_standard_models_loop (fuel i : nat) (standard_cell_types : list CellClass)
    : M Console (list CellClass) :=
  match fuel with
  | 0 => ret standard_cell_types
  | S fuel' =>
      match standard_cell_types !! i with
      | None => ret standard_cell_types
      | Some cell_class =>
          do remaining <-
            except_Exception
              (run create cell_class; ret standard_cell_types)
              (fun e =>
                 run print (not_creatable cell_class e);
                 lift (list_remove cell_class standard_cell_types));
          list_standard_models_loop fuel' (S i) remaining
      end
  end.

(** [list_standard_models()], given the classes the comprehension over
    [globals().values()] selects. One unit of fuel per element is
    enough: the index grows and the list does not. *)
Definition list_standard_models (standard_cell_types : list CellClass)
    : M Console (list string) :=
  do kept <- list_standard_models_loop (length standard_cell_types) 0 standard_cell_types;
  ret (class_name <$> kept).

End StandardModels.

Arguments printed {World} _.
Arguments engine {World} _.
Arguments print {World} _ _.
Arguments create {CellClass World} _ _ _.
Arguments list_remove {CellClass _} _ _.
Arguments not_creatable {CellClass} _ _ _ _.
Arguments list_standard_models_loop {CellClass _} _ {World} _ _ _ _ _ _.
Arguments list_standard_models {CellClass _} _ {World} _ _ _ _.

(** * A small engine to run the definitions on *)

Module Example.

(** An excerpt of what NEST reports for [iaf_psc_alpha], with one entry
    of a type PyNN does not support ([foo]) and one state variable that
    is not a number ([trace]). *)
Definition iaf_psc_alpha_defaults : dict :=
  [("C_m", VFloat 250); ("V_m", VFloat (-70)); ("model", VStr "iaf_psc_alpha");
   ("recordables", VTuple [VStr "I_syn_ex"; VStr "V_m"; VStr "trace"]);
   ("element_type", VStr "neuron"); ("frozen", VBool false);
   ("trace", VTuple [VFloat 0; VFloat 0]); ("foo", VStr "bar"); ("t_ref", VInt 2)].

(** An excerpt of what NEST reports for [poisson_generator]: a
    stimulator, without recordables. *)
Definition poisson_generator_defaults : dict :=
  [("rate", VFloat 0); ("model", VStr "poisson_generator");
   ("element_type", VStr "stimulator"); ("origin", VFloat 0)].

Definition GetDefaults (model : string) : outcome dict :=
  if String.eqb model "iaf_psc_alpha" then Ok iaf_psc_alpha_defaults
  else if String.eqb model "poisson_generator" then Ok poisson_generator_defaults
  else Raise (NESTError "UnknownModelName").

Definition GetDefaults_key (model key : string) : outcome value :=
  match GetDefaults model with
  | Ok defaults =>
      match dict_get defaults key with
      | Some v => Ok v
      | None => Raise (NESTError "DictError")
      end
  | Raise e => Raise e
  end.

Definition GetDefaults_recordables (model : string) : outcome (list string) :=
  match GetDefaults_key model "recordables" with
  | Ok (VTuple names) =>
      Ok (omap (fun v => match v with VStr s => Some s | _ => None end) names)
  | Ok _ => Raise (OtherException "recordables is not a tuple")
  | Raise e => Raise e
  end.

Definition GetDefaults_element_type (model : string) : outcome string :=
  match GetDefaults_key model "element_type" with
  | Ok (VStr s) => Ok s
  | Ok _ => Raise (OtherException "element_type is not a name")
  | Raise e => Raise e
  end.

(** [make_pynn_compatible] on the values above: arrays become
    sequences, scalars are left alone. *)
Definition make_pynn_compatible (v : value) : value :=
  match v with
  | VNdarray xs => VSequence xs
  | _ => v
  end.

Definition describe (model : string) : outcome NativeCellType * list string :=
  native_cell_type GetDefaults GetDefaults_recordables GetDefaults_element_type
    make_pynn_compatible model [].

Definition iaf_psc_alpha_type : NativeCellType :=
  {| nest_model := "iaf_psc_alpha";
     default_parameters :=
       <["t_ref" := VInt 2]> (<["C_m" := VFloat 250]> ∅);
     default_initial_values :=
       <["trace" := VTuple [VFloat 0; VFloat 0]]> (<["V_m" := VFloat (-70)]> ∅);
     receptor_types := [VStr "excitatory"; VStr "inhibitory"];
     injectable := true;
     recordable := ["I_syn_ex"; "V_m"; "trace"; "spikes"];
     units := <["spikes" := "ms"]> (<["trace" := "unknown"]>
                (<["V_m" := "mV"]> (<["I_syn_ex" := "pA"]> ∅)));
     standard_receptor_type := true;
     nest_name := <["off_grid" := "iaf_psc_alpha"]> (<["on_grid" := "iaf_psc_alpha"]> ∅);
     conductance_based := false;
     always_local := false;
     uses_parrot := false |}.

Definition poisson_generator_type : NativeCellType :=
  {| nest_model := "poisson_generator";
     default_parameters := <["origin" := VFloat 0]> (<["rate" := VFloat 0]> ∅);
     default_initial_values := ∅;
     receptor_types := [VStr "excitatory"; VStr "inhibitory"];
     injectable := false;
     recordable := ["spikes"];
     units := <["spikes" := "ms"]> ∅;
     standard_receptor_type := true;
     nest_name := <["off_grid" := "poisson_generator"]> (<["on_grid" := "poisson_generator"]> ∅);
     conductance_based := false;
     always_local := true;
     uses_parrot := true |}.

(** A session on strings: a population is its label, an IO handler is
    the name of its file, the world is the list of paths on disk. *)
Definition get_io (filename : string) (w : list string) : outcome string * list string :=
  if String.eqb filename "" then (Raise (OtherException "file extension not supported"), w)
  else (Ok filename, w).

Definition write_data (population io : string) (variables : value) (w : list string)
    : outcome unit * list string :=
  (Ok tt, w ++ [io]).

Definition rmtree (tempdir : string) (w : list string) : outcome unit * list string :=
  if bool_decide (tempdir ∈ w)
  then (Ok tt, filter (fun path => path ≠ tempdir) w)
  else (Raise (OtherException "FileNotFoundError"), w).

Definition SetDefaults_ok (model : string) (params : dict) (w : list string)
    : outcome unit * list string :=
  (Ok tt, w).

Definition str (v : value) : string :=
  match v with
  | VStr s => s
  | _ => "[...]"
  end.

(** The session object of the example: it takes a seed between 1 and
    2^32 - 1, a positive number of threads, one of the two spike
    precisions, and anything else. *)
Definition state_check (name : string) (args : list value) (st : State string)
    (w : list string) : outcome unit * list string :=
  if String.eqb name "rng_seed" then
    match args with
    | [VInt n] =>
        if (0 <? n)%Z && (n <? 4294967296)%Z then (Ok tt, w)
        else (Raise (NESTError "BadProperty"), w)
    | _ => (Raise (TypeError "rng_seed must be an integer"), w)
    end
  else if String.eqb name "threads" || String.eqb name "num_threads" then
    match args with
    | [VInt n] =>
        if (0 <? n)%Z then (Ok tt, w) else (Raise (NESTError "BadProperty"), w)
    | _ => (Raise (TypeError "the number of threads must be an integer"), w)
    end
  else if String.eqb name "spike_precision" then
    match args with
    | [VStr "on_grid"] | [VStr "off_grid"] => (Ok tt, w)
    | _ => (Raise (ValueError "spike_precision must be 'on_grid' or 'off_grid'"), w)
    end
  else (Ok tt, w).

Definition cleared : State string :=
  {| attrs := ∅; dt := 0.1%float; tempdirs := []; write_on_end := [] |}.

Definition clear (st : State string) (w : list string)
    : outcome (State string) * list string :=
  (Ok cleared, w).

(** A process before [setup]. *)
Definition fresh : Process string (list string) :=
  {| simulator_state := cleared; warnings_emitted := []; debug_log := [];
     effects := []; world := [] |}.

(** [setup(timestep, min_delay, **extra_params)] on the example session. *)
Definition run_setup (timestep : float) (min_delay : value) (extra_params : dict)
    : outcome value * Process string (list string) :=
  setup (VFloat 10) (fun _ _ _ => Ok tt) clear (fun _ => VInt 0) SetDefaults_ok
    state_check timestep min_delay extra_params fresh.

(** A process after a run: one recording to flush, one temporary
    directory on disk. *)
Definition recorded : Process string (list string) :=
  {| simulator_state :=
       {| attrs := <["rng_seed" := VInt 42]> ∅; dt := 0.1%float;
          tempdirs := ["/tmp/pynn_a"];
          write_on_end := [("exc", VList [VStr "spikes"], "exc.pkl")] |};
     warnings_emitted := []; debug_log := [];
     effects := []; world := ["/tmp/pynn_a"] |}.

(** The same process once [end] has run. *)
Definition flushed : Process string (list string) :=
  {| simulator_state :=
       {| attrs := <["rng_seed" := VInt 42]> ∅; dt := 0.1%float;
          tempdirs := []; write_on_end := [] |};
     warnings_emitted := []; debug_log := ["exc[...] --> exc.pkl"];
     effects := [Wrote "exc" (VList [VStr "spikes"]) "exc.pkl"; Removed "/tmp/pynn_a"];
     world := ["exc.pkl"] |}.

Definition run_end (p : Process string (list string))
    : outcome unit * Process string (list string) :=
  end_ (fun population => population) str get_io write_data rmtree p.

(** An excerpt of what NEST reports for [ht_neuron]: named receptors
    and conductances among the recordables. *)
Definition ht_neuron_defaults : dict :=
  [("tau_m", VFloat 16); ("V_m", VFloat (-70)); ("g_AMPA", VFloat 0);
   ("model", VStr "ht_neuron");
   ("recordables", VTuple [VStr "V_m"; VStr "g_AMPA"]);
   ("receptor_types", VDict [("AMPA", VInt 1); ("NMDA", VInt 2);
                             ("GABA_A", VInt 3); ("GABA_B", VInt 4)]);
   ("element_type", VStr "neuron")].

(** The engine above, with [ht_neuron] added. *)
Definition GetDefaults_ht (model : string) : outcome dict :=
  if String.eqb model "ht_neuron" then Ok ht_neuron_defaults else GetDefaults model.

Definition GetDefaults_recordables_ht (model : string) : outcome (list string) :=
  if String.eqb model "ht_neuron" then Ok ["V_m"; "g_AMPA"]
  else GetDefaults_recordables model.

Definition GetDefaults_element_type_ht (model : string) : outcome string :=
  if String.eqb model "ht_neuron" then Ok "neuron" else GetDefaults_element_type model.

Definition describe_ht (model : string) : outcome NativeCellType * list string :=
  native_cell_type GetDefaults_ht GetDefaults_recordables_ht GetDefaults_element_type_ht
    make_pynn_compatible model [].

Definition ht_neuron_type : NativeCellType :=
  {| nest_model := "ht_neuron";
     default_parameters := <["tau_m" := VFloat 16]> ∅;
     default_initial_values := <["g_AMPA" := VFloat 0]> (<["V_m" := VFloat (-70)]> ∅);
     receptor_types := [VStr "AMPA"; VStr "NMDA"; VStr "GABA_A"; VStr "GABA_B"];
     injectable := true;
     recordable := ["V_m"; "g_AMPA"; "spikes"];
     units := <["spikes" := "ms"]> (<["g_AMPA" := "unknown"]> (<["V_m" := "mV"]> ∅));
     standard_receptor_type := false;
     nest_name := <["off_grid" := "ht_neuron"]> (<["on_grid" := "ht_neuron"]> ∅);
     conductance_based := true;
     always_local := false;
     uses_parrot := false |}.

(** An engine whose [recordables] query fails with something that is
    not a [NESTError]. *)
Definition GetDefaults_recordables_broken (model : string) : outcome (list string) :=
  Raise (TypeError "'NoneType' object is not iterable").

(** Standard cell types by name; creating one whose name starts with
    [X] fails, creating another adds it to the engine. *)
Definition create_instance (cell_class : string) (w : list string)
    : outcome unit * list string :=
  if String.eqb (String.substring 0 1 cell_class) "X"
  then (Raise (OtherException (cell_class +:+ " is not available")), w)
  else (Ok tt, w ++ [cell_class]).

Definition exn_str (e : exn) : string :=
  match e with
  | NESTError msg | AttributeError msg | TypeError msg | IndexError msg
  | KeyError msg | ValueError msg | OtherException msg => msg
  end.

Definition console : Console (list string) := {| printed := []; engine := [] |}.

Definition run_list_standard_models (standard_cell_types : list string)
    : outcome (list string) * Console (list string) :=
  list_standard_models (fun cell_class => cell_class) create_instance exn_str
    standard_cell_types console.

(** [setup] with a [common.setup] that rejects every call. *)
Definition run_setup_rejected (timestep : float) (min_delay : value) (extra_params : dict)
    : outcome value * Process string (list string) :=
  setup (VFloat 10) (fun _ _ _ => Raise (OtherException "min_delay must be >= timestep"))
    clear (fun _ => VInt 0) SetDefaults_ok state_check timestep min_delay extra_params
    recorded.

(** A process whose pending recording has a file name no handler
    accepts. *)
Definition unwritable : Process string (list string) :=
  {| simulator_state :=
       {| attrs := <["rng_seed" := VInt 42]> ∅; dt := 0.1%float;
          tempdirs := ["/tmp/pynn_a"];
          write_on_end := [("exc", VList [VStr "spikes"], "")] |};
     warnings_emitted := []; debug_log := [];
     effects := []; world := ["/tmp/pynn_a"] |}.

End Example.

(** * Vocabulary of the statements *)

(** [defaults.get('recordables', [])]. *)
Definition variables_of (defaults : dict) : value :=
  default (VList []) (dict_get defaults "recordables").

(** An entry goes through the type test when it is neither a
    recordable nor on the ignore list. *)
Definition type_tested (variables : value) (name : string) : Prop :=
  py_contains variables name = Ok false ∧ name ∉ ignore.

(** The warnings the loop emits for [items], in order. *)
Fixpoint rejected_warnings (variables : value) (items : dict) : list string :=
  match items with
  | [] => []
  | (name, v) :: rest =>
      match py_contains variables name with
      | Ok false =>
          if bool_decide (name ∉ ignore) && negb (isinstance_valid_types v)
          then ignoring_parameter name v :: rejected_warnings variables rest
          else rejected_warnings variables rest
      | _ => rejected_warnings variables rest
      end
  end.

(** An entry the loop puts in the parameter map. *)
Definition accepted (variables : value) (name : string) (v : value) : Prop :=
  type_tested variables name ∧ isinstance_valid_types v = true.




(** A name whose first letter is [g]. *)
Definition starts_with_g (name : string) : Prop :=
  ∃ rest, name = "g" +:+ rest.




(** * Properties of the reflection of native models *)

(** Unfolding the monad in goals and hypotheses. *)
Ltac unfold_monad :=
  unfold bind, lift, ret, gets, modify, warn, except_NESTError in *; simpl in *.

Section LoopFacts.

Variable make_pynn_compatible : value -> value.

Local Abbreviation loop := (get_defaults_loop make_pynn_compatible).


(** What one run of the loop does to the two dictionaries and to the
    emitted warnings. *)
Lemma get_defaults_loop_spec variables items :
  ∀ P I ws P' I' ws',
    loop variables items P I ws = (Ok (P', I'), ws') →
    ws' = ws ++ rejected_warnings variables items
    ∧ (∀ name v', P' !! name = Some v' →
         P !! name = Some v'
         ∨ ∃ v, (name, v) ∈ items ∧ accepted variables name v ∧ v' = make_pynn_compatible v)
    ∧ (∀ name v, I' !! name = Some v →
         I !! name = Some v ∨ ((name, v) ∈ items ∧ py_contains variables name = Ok true))
    ∧ (∀ name, name ∉ dict_keys items → P' !! name = P !! name ∧ I' !! name = I !! name).
Proof.
  unfold accepted, type_tested.
  induction items as [|[name v] rest IH]; intros P I ws P' I' ws' Hrun.
  - unfold_monad. inversion Hrun; subst. rewrite app_nil_r. naive_solver.
  - simpl in Hrun. unfold bind at 1, lift at 1 in Hrun. simpl.
    destruct (py_contains variables name) as [[|]|e] eqn:Hc; [| |discriminate].
    + apply IH in Hrun as (Hws & HP & HI & Hframe). split; [done|]. split; [|split].
      * intros n v' Hn. destruct (HP n v' Hn) as [?|(x & Hin & Hacc & ->)]; [by left|].
        right. exists x. rewrite elem_of_cons. eauto.
      * intros n x Hn. destruct (HI n x Hn) as [Hold|[Hin Hcn]].
        -- destruct (decide (name = n)) as [->|Hne].
           ++ rewrite lookup_insert_eq in Hold. inversion Hold; subst.
              right. rewrite elem_of_cons. eauto.
           ++ rewrite lookup_insert_ne in Hold by done. by left.
        -- right. rewrite elem_of_cons. eauto.
      * intros n Hn. apply not_elem_of_cons in Hn as [Hne Hn].
        destruct (Hframe n Hn) as [-> ->]. by rewrite lookup_insert_ne.
    + destruct (bool_decide (name ∉ ignore)) eqn:Hi; simpl.
      * apply bool_decide_eq_true in Hi.
        destruct (isinstance_valid_types v) eqn:Hv; simpl.
        -- apply IH in Hrun as (Hws & HP & HI & Hframe). split; [done|]. split; [|split].
           ++ intros n v' Hn. destruct (HP n v' Hn) as [Hold|(x & Hin & Hacc & ->)].
              ** destruct (decide (name = n)) as [->|Hne].
                 --- rewrite lookup_insert_eq in Hold. inversion Hold; subst.
                     right. exists v. rewrite elem_of_cons. eauto 10.
                 --- rewrite lookup_insert_ne in Hold by done. by left.
              ** right. exists x. rewrite elem_of_cons. eauto.
           ++ intros n x Hn. destruct (HI n x Hn) as [?|[Hin Hcn]]; [by left|].
              right. rewrite elem_of_cons. eauto.
           ++ intros n Hn. apply not_elem_of_cons in Hn as [Hne Hn].
              destruct (Hframe n Hn) as [-> ->]. by rewrite lookup_insert_ne.
        -- unfold bind at 1, warn, modify in Hrun. simpl in Hrun.
           apply IH in Hrun as (Hws & HP & HI & Hframe).
           split; [by rewrite Hws, <- app_assoc|]. split; [|split].
           ++ intros n v' Hn. destruct (HP n v' Hn) as [?|(x & Hin & Hacc & ->)]; [by left|].
              right. exists x. rewrite elem_of_cons. eauto.
           ++ intros n x Hn. destruct (HI n x Hn) as [?|[Hin Hcn]]; [by left|].
              right. rewrite elem_of_cons. eauto.
           ++ intros n Hn. apply not_elem_of_cons in Hn as [Hne Hn]. by apply Hframe.
      * apply IH in Hrun as (Hws & HP & HI & Hframe). split; [done|]. split; [|split].
        -- intros n v' Hn. destruct (HP n v' Hn) as [?|(x & Hin & Hacc & ->)]; [by left|].
           right. exists x. rewrite elem_of_cons. eauto.
        -- intros n x Hn. destruct (HI n x Hn) as [?|[Hin Hcn]]; [by left|].
           right. rewrite elem_of_cons. eauto.
        -- intros n Hn. apply not_elem_of_cons in Hn as [Hne Hn]. by apply Hframe.
Qed.


(** The loop raises only where [name in variables] does. *)
Lemma get_defaults_loop_total variables items :
  (∀ name, ∃ b, py_contains variables name = Ok b) →
  ∀ P I ws, ∃ P' I' ws', loop variables items P I ws = (Ok (P', I'), ws').
Proof.
  intros Hc. induction items as [|[n x] rest IH]; intros P I ws.
  - by exists P, I, ws.
  - simpl. unfold bind at 1, lift at 1. destruct (Hc n) as [b ->].
    destruct b; [apply IH|]. destruct (bool_decide (n ∉ ignore)); simpl; [|apply IH].
    destruct (isinstance_valid_types x); [apply IH|]. unfold bind at 1, warn, modify. simpl.
    apply IH.
Qed.

End LoopFacts.

(** [units_of] binds exactly the names of the list, each to its entry
    in [UNITS_MAP] or to ['unknown']. *)
Lemma units_of_lookup (recordable : list string) (name : string) :
  units_of recordable !! name =
    if decide (name ∈ recordable) then Some (default "unknown" (UNITS_MAP !! name)) else None.
Proof.
  unfold units_of.
  assert (∀ (l : list string) (m : gmap string string),
            foldl (λ m var, <[var := default "unknown" (UNITS_MAP !! var)]> m) m l !! name
            = if decide (name ∈ l) then Some (default "unknown" (UNITS_MAP !! name))
              else m !! name) as Hgen.
  { induction l as [|x l IH]; intros m; simpl.
    - destruct (decide (name ∈ [])) as [Hin|_]; [inversion Hin|done].
    - rewrite IH. destruct (decide (name ∈ l)) as [Hin|Hnin].
      + rewrite decide_True; [done|]. by apply elem_of_cons; right.
      + destruct (decide (x = name)) as [->|Hne].
        * rewrite lookup_insert_eq, decide_True; [done|]. by apply elem_of_cons; left.
        * rewrite lookup_insert_ne by done. rewrite decide_False; [done|].
          rewrite elem_of_cons. intros [?|?]; congruence. }
  rewrite Hgen. by destruct (decide _).
Qed.

Section CellsFacts.

Variable nest_GetDefaults : string -> outcome dict.
Variable nest_GetDefaults_recordables : string -> outcome (list string).
Variable nest_GetDefaults_element_type : string -> outcome string.
Variable make_pynn_compatible : value -> value.

Local Abbreviation loop := (get_defaults_loop make_pynn_compatible).

Lemma get_defaults_inv model ws P I ws' :
  get_defaults nest_GetDefaults make_pynn_compatible model ws = (Ok (P, I), ws') →
  ∃ defaults, nest_GetDefaults model = Ok defaults
              ∧ loop (variables_of defaults) defaults ∅ ∅ ws = (Ok (P, I), ws').
Proof.
  unfold get_defaults, variables_of, bind at 1, lift at 1.
  destruct (nest_GetDefaults model) as [defaults|e]; [|discriminate]. eauto.
Qed.

Lemma get_recordables_cases model ws :
  (∃ names, nest_GetDefaults_recordables model = Ok names
            ∧ get_recordables nest_GetDefaults_recordables model ws = (Ok names, ws))
  ∨ (∃ msg, nest_GetDefaults_recordables model = Raise (NESTError msg)
            ∧ get_recordables nest_GetDefaults_recordables model ws = (Ok [], ws))
  ∨ (∃ e, nest_GetDefaults_recordables model = Raise e
          ∧ get_recordables nest_GetDefaults_recordables model ws = (Raise e, ws)).
Proof.
  unfold get_recordables. unfold_monad.
  destruct (nest_GetDefaults_recordables model) as [names|[]]; eauto 10.
Qed.

(** What a successful [native_cell_type] did on the way. *)
Lemma native_cell_type_inv model ws desc ws' :
  native_cell_type nest_GetDefaults nest_GetDefaults_recordables
    nest_GetDefaults_element_type make_pynn_compatible model ws = (Ok desc, ws') →
  ∃ reported element_type,
    get_defaults nest_GetDefaults make_pynn_compatible model ws = (Ok (default_parameters desc, default_initial_values desc), ws')
    ∧ get_recordables nest_GetDefaults_recordables model ws' = (Ok reported, ws')
    ∧ nest_GetDefaults_element_type model = Ok element_type
    ∧ recordable desc = reported ++ ["spikes"]
    ∧ units desc = units_of (recordable desc)
    ∧ always_local desc = String.eqb element_type "stimulator"
    ∧ uses_parrot desc = String.eqb element_type "stimulator".
Proof.
  unfold native_cell_type. unfold bind at 1.
  destruct (get_defaults nest_GetDefaults make_pynn_compatible model ws) as [[[P I]|e] ws1] eqn:Hd; [|discriminate].
  unfold bind at 1. unfold get_receptor_types, bind at 1, lift at 1.
  destruct (nest_GetDefaults model) as [defaults|e]; [|discriminate].
  unfold lift at 1. destruct (py_list _) as [receptors|e]; [|discriminate].
  unfold bind at 1.
  destruct (get_recordables_cases model ws1)
    as [(names & _ & Hr)|[(msg & _ & Hr)|(e & _ & Hr)]]; rewrite Hr; [| |discriminate].
  - unfold bind at 1, lift at 1.
    destruct (nest_GetDefaults_element_type model) as [et|e]; [|discriminate].
    unfold bind at 1, lift at 1.
    destruct (g_in_first_letters _) as [cb|e]; [|discriminate].
    unfold ret. intros [= <- <-]. simpl. exists names, et. eauto 10.
  - unfold bind at 1, lift at 1.
    destruct (nest_GetDefaults_element_type model) as [et|e]; [|discriminate].
    unfold bind at 1, lift at 1.
    destruct (g_in_first_letters _) as [cb|e]; [|discriminate].
    unfold ret. intros [= <- <-]. simpl. exists [], et. eauto 10.
Qed.

Lemma g_in_first_letters_total (names : list string) :
  Forall (λ s, s ≠ "") names → ∃ b, g_in_first_letters names = Ok b.
Proof.
  induction 1 as [|s names Hs _ IH]; [by exists false|].
  destruct s as [|c s]; [done|]. cbn [g_in_first_letters].
  destruct (String.eqb (String c EmptyString) "g"); eauto.
Qed.

(** [native_cell_type] returns a class whenever the engine knows the
    model, its [recordables] and [receptor_types] entries are
    containers, and no recordable has the empty name. *)
Lemma native_cell_type_succeeds model ws defaults reported element_type :
  nest_GetDefaults model = Ok defaults →
  (∀ name, ∃ b, py_contains (variables_of defaults) name = Ok b) →
  (∃ receptors, py_list (default (VTuple [VStr "excitatory"; VStr "inhibitory"])
                                 (dict_get defaults "receptor_types")) = Ok receptors) →
  (nest_GetDefaults_recordables model = Ok reported
   ∨ reported = [] ∧ ∃ msg, nest_GetDefaults_recordables model = Raise (NESTError msg)) →
  Forall (λ s, s ≠ "") reported →
  nest_GetDefaults_element_type model = Ok element_type →
  ∃ desc ws', native_cell_type nest_GetDefaults nest_GetDefaults_recordables
    nest_GetDefaults_element_type make_pynn_compatible model ws = (Ok desc, ws').
Proof.
  intros Hd Hc [receptors Hr] Hrec Hne Het.
  unfold native_cell_type, get_defaults, get_receptor_types, get_recordables.
  unfold bind at 1. unfold bind at 1, lift at 1. rewrite Hd.
  destruct (get_defaults_loop_total make_pynn_compatible (variables_of defaults) defaults Hc ∅ ∅ ws)
    as (P & I & ws' & Hloop).
  unfold variables_of in Hloop. rewrite Hloop.
  destruct (g_in_first_letters_total (reported ++ ["spikes"])) as [cb Hcb].
  { apply Forall_app. split; [done|]. by repeat constructor. }
  unfold bind, lift, ret, except_NESTError. cbv beta iota. rewrite Hr. cbv beta iota.
  destruct Hrec as [Hrec|[-> [msg Hrec]]]; rewrite Hrec; cbv beta iota;
    rewrite Het; cbv beta iota; rewrite Hcb; eauto.
Qed.

(** C5. Whatever the engine reports for a model and whatever the type
    of the values, the parameter map of the class that
    [native_cell_type] builds binds no name of the ignore list. *)
Theorem describe_excludes_ignored_names model ws desc ws' :
  native_cell_type nest_GetDefaults nest_GetDefaults_recordables
    nest_GetDefaults_element_type make_pynn_compatible model ws = (Ok desc, ws') →
  ∀ name, name ∈ ignore → default_parameters desc !! name = None.
Proof.
  intros Hrun name Hin.
  apply native_cell_type_inv in Hrun as (_ & _ & Hd & _).
  apply get_defaults_inv in Hd as (defaults & _ & Hloop).
  apply get_defaults_loop_spec in Hloop as (_ & HP & _).
  destruct (default_parameters desc !! name) as [v'|] eqn:Hl; [|done].
  destruct (HP name v' Hl) as [Hempty|(v & _ & [[_ Hout] _] & _)]; [|contradiction].
  by rewrite lookup_empty in Hempty.
Qed.

(** C6. Every recordable name has an entry in the unit map, bound to
    its unit in [UNITS_MAP] or to ['unknown'] when the table does not
    have it: this holds for each name the engine reports and for each
    name of the class's recordable list, and the unit map has no other
    keys. *)
Theorem units_cover_recordables model ws desc ws' :
  native_cell_type nest_GetDefaults nest_GetDefaults_recordables
    nest_GetDefaults_element_type make_pynn_compatible model ws = (Ok desc, ws') →
  (∀ reported, nest_GetDefaults_recordables model = Ok reported →
     ∀ name, name ∈ reported →
       units desc !! name = Some (default "unknown" (UNITS_MAP !! name)))
  ∧ (∀ name, name ∈ recordable desc →
       units desc !! name = Some (default "unknown" (UNITS_MAP !! name)))
  ∧ (∀ name, is_Some (units desc !! name) ↔ name ∈ recordable desc).
Proof.
  intros Hrun.
  apply native_cell_type_inv in Hrun as (reported' & _ & _ & Hr & _ & Hrec & Hunits & _).
  assert (∀ name, name ∈ recordable desc →
            units desc !! name = Some (default "unknown" (UNITS_MAP !! name))) as Hall.
  { intros name Hin. rewrite Hunits, units_of_lookup. by rewrite decide_True. }
  split; [|split; [exact Hall|]].
  - intros reported Hq name Hin. apply Hall. rewrite Hrec.
    destruct (get_recordables_cases model ws')
      as [(names & Hq' & Hr')|[(msg & Hq' & _)|(e & Hq' & Hr')]]; try congruence.
    rewrite Hr' in Hr. rewrite Hq in Hq'. inversion Hr; inversion Hq'; subst.
    apply elem_of_app. by left.
  - intros name. rewrite Hunits, units_of_lookup.
    destruct (decide (name ∈ recordable desc)) as [Hin|Hnin].
    + split; [done|]. eauto.
    + split; [intros [? ?]; discriminate|done].
Qed.

(** C7. [always_local] and [uses_parrot] are both true when the engine
    gives the model the element type ['stimulator'], and both false
    for every other element type. *)
Theorem stimulator_flags model ws desc ws' element_type :
  native_cell_type nest_GetDefaults nest_GetDefaults_recordables
    nest_GetDefaults_element_type make_pynn_compatible model ws = (Ok desc, ws') →
  nest_GetDefaults_element_type model = Ok element_type →
  (element_type = "stimulator" → always_local desc = true ∧ uses_parrot desc = true)
  ∧ (element_type ≠ "stimulator" → always_local desc = false ∧ uses_parrot desc = false).
Proof.
  intros Hrun Het.
  apply native_cell_type_inv in Hrun as (_ & et & _ & _ & Het' & _ & _ & -> & ->).
  rewrite Het in Het'. inversion Het'; subst et. split.
  - intros ->. done.
  - intros Hne. by apply String.eqb_neq in Hne as ->.
Qed.

(** C8. When the engine answers the query for a model's recordables
    with a [NESTError], [get_recordables] returns the empty list and
    raises nothing. *)
Theorem get_recordables_swallows_NESTError model msg ws :
  nest_GetDefaults_recordables model = Raise (NESTError msg) →
  get_recordables nest_GetDefaults_recordables model ws = (Ok [], ws).
Proof.
  intros Hq. unfold get_recordables. unfold_monad. by rewrite Hq.
Qed.

(** C10. The recordable list of every class built by
    [native_cell_type] is what [get_recordables] returned followed by
    ['spikes'], so it contains ['spikes'] and is never empty, and the
    unit map binds ['spikes'] to ['ms']. *)
Theorem spikes_always_recordable model ws desc ws' :
  native_cell_type nest_GetDefaults nest_GetDefaults_recordables
    nest_GetDefaults_element_type make_pynn_compatible model ws = (Ok desc, ws') →
  (∃ reported, get_recordables nest_GetDefaults_recordables model ws' = (Ok reported, ws')
               ∧ recordable desc = reported ++ ["spikes"])
  ∧ "spikes" ∈ recordable desc
  ∧ recordable desc ≠ []
  ∧ units desc !! "spikes" = Some "ms".
Proof.
  intros Hrun.
  apply native_cell_type_inv in Hrun as (reported & _ & _ & Hr & _ & Hrec & Hunits & _).
  assert ("spikes" ∈ recordable desc) as Hin.
  { rewrite Hrec. apply elem_of_app. right. by apply list_elem_of_singleton. }
  split; [eauto|]. split; [done|]. split.
  - rewrite Hrec. by destruct reported.
  - rewrite Hunits, units_of_lookup. by rewrite decide_True.
Qed.


End CellsFacts.

(** ** The reflection on the example engine *)

Lemma describe_iaf_psc_alpha :
  Example.describe "iaf_psc_alpha"
  = (Ok Example.iaf_psc_alpha_type,
     ["Ignoring parameter 'foo' since PyNN does not support <class 'str'>"]).
Proof. vm_compute. reflexivity. Defined.

Lemma describe_poisson_generator :
  Example.describe "poisson_generator" = (Ok Example.poisson_generator_type, []).
Proof. vm_compute. reflexivity. Defined.





Lemma describe_excludes_ignored_names_witness :
  Example.describe "iaf_psc_alpha"
  = (Ok Example.iaf_psc_alpha_type,
     ["Ignoring parameter 'foo' since PyNN does not support <class 'str'>"])
  ∧ "model" ∈ ignore
  ∧ default_parameters Example.iaf_psc_alpha_type !! "model" = None.
Proof.
  assert ("model" ∈ ignore) as Hin by (apply (bool_decide_unpack _); vm_compute; reflexivity).
  split; [exact describe_iaf_psc_alpha|]. split; [exact Hin|].
  exact (describe_excludes_ignored_names Example.GetDefaults Example.GetDefaults_recordables
           Example.GetDefaults_element_type Example.make_pynn_compatible
           "iaf_psc_alpha" [] _ _ describe_iaf_psc_alpha "model" Hin).
Defined.

Lemma units_cover_recordables_witness :
  Example.GetDefaults_recordables "iaf_psc_alpha" = Ok ["I_syn_ex"; "V_m"; "trace"]
  ∧ units Example.iaf_psc_alpha_type !! "V_m" = Some "mV"
  ∧ units Example.iaf_psc_alpha_type !! "trace" = Some "unknown".
Proof.
  destruct (units_cover_recordables Example.GetDefaults Example.GetDefaults_recordables
              Example.GetDefaults_element_type Example.make_pynn_compatible
              "iaf_psc_alpha" [] _ _ describe_iaf_psc_alpha) as (Hreported & _ & _).
  split; [reflexivity|]. split.
  - apply (Hreported ["I_syn_ex"; "V_m"; "trace"] eq_refl "V_m").
    rewrite !elem_of_cons. tauto.
  - apply (Hreported ["I_syn_ex"; "V_m"; "trace"] eq_refl "trace").
    rewrite !elem_of_cons. tauto.
Defined.

Lemma stimulator_flags_witness :
  (Example.GetDefaults_element_type "poisson_generator" = Ok "stimulator"
   ∧ always_local Example.poisson_generator_type = true
   ∧ uses_parrot Example.poisson_generator_type = true)
  ∧ (Example.GetDefaults_element_type "iaf_psc_alpha" = Ok "neuron"
     ∧ always_local Example.iaf_psc_alpha_type = false
     ∧ uses_parrot Example.iaf_psc_alpha_type = false).
Proof.
  split.
  - split; [reflexivity|].
    destruct (stimulator_flags Example.GetDefaults Example.GetDefaults_recordables
                Example.GetDefaults_element_type Example.make_pynn_compatible
                "poisson_generator" [] _ _ "stimulator" describe_poisson_generator eq_refl)
      as [Hstim _].
    exact (Hstim eq_refl).
  - split; [reflexivity|].
    destruct (stimulator_flags Example.GetDefaults Example.GetDefaults_recordables
                Example.GetDefaults_element_type Example.make_pynn_compatible
                "iaf_psc_alpha" [] _ _ "neuron" describe_iaf_psc_alpha eq_refl)
      as [_ Hother].
    apply Hother. discriminate.
Defined.

Lemma get_recordables_swallows_NESTError_witness :
  Example.GetDefaults_recordables "poisson_generator" = Raise (NESTError "DictError")
  ∧ get_recordables Example.GetDefaults_recordables "poisson_generator" [] = (Ok [], []).
Proof.
  split; [reflexivity|].
  exact (get_recordables_swallows_NESTError Example.GetDefaults_recordables
           "poisson_generator" "DictError" [] eq_refl).
Defined.

Lemma spikes_always_recordable_witness :
  Example.describe "poisson_generator" = (Ok Example.poisson_generator_type, [])
  ∧ "spikes" ∈ recordable Example.poisson_generator_type
  ∧ units Example.poisson_generator_type !! "spikes" = Some "ms".
Proof.
  destruct (spikes_always_recordable Example.GetDefaults Example.GetDefaults_recordables
              Example.GetDefaults_element_type Example.make_pynn_compatible
              "poisson_generator" [] _ _ describe_poisson_generator)
    as (_ & Hin & _ & Hunit).
  split; [exact describe_poisson_generator|]. split; [exact Hin|exact Hunit].
Defined.

(** * Properties of the session functions *)

Section SessionFacts.

Variable Population : Type.
Variable label : Population -> string.
Variable IO : Type.
Variable World : Type.
Variable DEFAULT_MAX_DELAY : value.
Variable common_setup : float -> value -> dict -> outcome unit.
Variable clear : State Population -> World -> outcome (State Population) * World.
Variable mpi_rank : State Population -> value.
Variable py_str : value -> string.
Variable recording_get_io : string -> World -> outcome IO * World.
Variable write_data : Population -> IO -> value -> World -> outcome unit * World.
Variable shutil_rmtree : string -> World -> outcome unit * World.
Variable nest_SetDefaults : string -> dict -> World -> outcome unit * World.
Variable state_check :
  string -> list value -> State Population -> World -> outcome unit * World.

Implicit Types p : Process Population World.

Lemma dict_has_getitem (d : dict) (k : string) :
  dict_has d k = true → ∃ v, dict_get d k = Some v ∧ dict_getitem d k = Ok v.
Proof.
  unfold dict_has, dict_getitem. destruct (dict_get d k) as [v|]; [eauto|discriminate].
Qed.

Lemma dict_has_false (d : dict) (k : string) :
  dict_has d k = false → dict_get d k = None.
Proof. unfold dict_has. by destruct (dict_get d k). Qed.

Lemma on_state_id p : on_state (fun st => st) p = p.
Proof. by destruct p. Qed.

(** A sequence that returns has run both of its parts. *)
Lemma bind_returns {S A B} (m : M S A) (k : A -> M S B) s b s' :
  bind m k s = (Ok b, s') → ∃ a s1, m s = (Ok a, s1) ∧ k a s1 = (Ok b, s').
Proof. unfold bind. destruct (m s) as [[a|e] s1]; [eauto|discriminate]. Qed.

Lemma lift_returns {S A} (o : outcome A) (s : S) a s1 :
  lift o s = (Ok a, s1) → o = Ok a ∧ s1 = s.
Proof. unfold lift. intros H. by inversion H. Qed.

(** An assignment or a call that [simulator.state] accepts changes the
    session as described and emits nothing. *)
Lemma state_call_returns name args f p u p1 :
  state_call state_check name args f p = (Ok u, p1) →
  simulator_state p1 = f (simulator_state p)
  ∧ warnings_emitted p1 = warnings_emitted p.
Proof.
  unfold state_call.
  destruct (state_check name args (simulator_state p) (world p)) as [[[]|e] w];
    intros H; inversion H; done.
Qed.

Lemma setattr_returns name v p u p1 :
  setattr state_check name v p = (Ok u, p1) →
  attrs (simulator_state p1) = <[name := v]> (attrs (simulator_state p))
  ∧ dt (simulator_state p1) = dt (simulator_state p)
  ∧ warnings_emitted p1 = warnings_emitted p.
Proof.
  intros H. apply state_call_returns in H as [-> ->]. done.
Qed.

Lemma state_clear_returns p u p1 :
  state_clear clear p = (Ok u, p1) → warnings_emitted p1 = warnings_emitted p.
Proof.
  unfold state_clear.
  destruct (clear (simulator_state p) (world p)) as [[st|e] w];
    intros H; inversion H; done.
Qed.

Lemma warnings_warn_returns msg p u p1 :
  warnings_warn msg p = (Ok u, p1) →
  simulator_state p1 = simulator_state p
  ∧ warnings_emitted p1 = warnings_emitted p ++ [msg].
Proof. unfold warnings_warn, modify. intros H. by inversion H. Qed.

(** The loop over the four options set by name emits nothing. *)
Lemma named_options_loop (extra_params : dict) (keys : list string) :
  ∀ p u p1,
    for_each keys
      (fun key =>
         if dict_has extra_params key then
           do v <- lift (dict_getitem extra_params key);
           setattr state_check key v
         else ret tt) p
    = (Ok u, p1) →
    warnings_emitted p1 = warnings_emitted p.
Proof.
  induction keys as [|key rest IH]; intros p u p1 Hrun.
  - by inversion Hrun.
  - cbn [for_each] in Hrun. apply bind_returns in Hrun as (? & p0 & Hkey & Hrun).
    apply IH in Hrun as ->.
    destruct (dict_has extra_params key).
    + apply bind_returns in Hkey as (v & ? & Hv & Hkey).
      apply lift_returns in Hv as [_ ->].
      by apply setattr_returns in Hkey as (_ & _ & ->).
    + by inversion Hkey.
Qed.

(** What a [setup] that returns has left in the session: the seed of
    the last test, the warnings of the deprecated options, the thread
    count and the time step; and what it returns. *)
Lemma setup_returns timestep lo extra_params p r p' :
  setup DEFAULT_MAX_DELAY common_setup clear mpi_rank nest_SetDefaults state_check
    timestep lo extra_params p = (Ok r, p') →
  attrs (simulator_state p') !! "rng_seed" = Some (resolved_seed extra_params)
  ∧ warnings_emitted p' = warnings_emitted p ++ seed_warnings extra_params
  ∧ (∃ threads,
       py_or (default VNone (dict_get extra_params "threads")) (VInt 1) = Ok threads
       ∧ attrs (simulator_state p') !! "num_threads" = Some threads)
  ∧ (∀ v, dict_get extra_params "t_flush" = Some v →
       attrs (simulator_state p') !! "t_flush" = Some v)
  ∧ dt (simulator_state p') = timestep
  ∧ r = mpi_rank (simulator_state p')
  ∧ (∀ seeds, dict_get extra_params "rng_seeds" = Some seeds →
       ∃ v, py_getitem0 seeds = Ok v).
Proof.
  intros Hrun. unfold setup in Hrun.
  apply bind_returns in Hrun as (? & p1 & Hcs & Hrun).
  apply lift_returns in Hcs as [_ ->].
  apply bind_returns in Hrun as (? & p1 & Hclear & Hrun).
  apply state_clear_returns in Hclear as Hw1.
  apply bind_returns in Hrun as (? & p2 & Hloop & Hrun).
  apply named_options_loop in Hloop as Hw2.
  apply bind_returns in Hrun as (threads & ? & Hthreads & Hrun).
  apply lift_returns in Hthreads as [Hthreads ->].
  apply bind_returns in Hrun as (? & p3 & Hnt & Hrun).
  apply setattr_returns in Hnt as (Ha3 & _ & Hw3).
  apply bind_returns in Hrun as (? & p4 & Hg & Hrun).
  apply bind_returns in Hrun as (? & p5 & Hs & Hrun).
  apply bind_returns in Hrun as (? & p6 & Hss & Hrun).
  apply bind_returns in Hrun as (? & p7 & Hf & Hrun).
  apply bind_returns in Hrun as (? & p8 & Hdt & Hrun).
  apply bind_returns in Hrun as (? & p9 & Hdel & Hrun).
  apply bind_returns in Hrun as (? & p10 & Hsd & Hrun).
  unfold rank, gets in Hrun. inversion Hrun; subst r p'. clear Hrun.
  (* grng_seed *)
  assert (attrs (simulator_state p4) !! "num_threads" = Some threads
          ∧ warnings_emitted p4
            = warnings_emitted p
              ++ (if dict_has extra_params "grng_seed"
                  then ["The setup argument 'grng_seed' is now 'rng_seed'"] else []))
    as [Hn4 Hw4].
  { destruct (dict_has extra_params "grng_seed").
    - apply bind_returns in Hg as (? & q & Hwarn & Hg).
      apply warnings_warn_returns in Hwarn as [Hq Hqw].
      apply bind_returns in Hg as (v & ? & Hv & Hg).
      apply lift_returns in Hv as [_ ->].
      apply setattr_returns in Hg as (-> & _ & ->).
      rewrite lookup_insert_ne by done. rewrite Hq, Ha3, lookup_insert_eq.
      split; [done|]. by rewrite Hqw, Hw3, Hw2, Hw1.
    - inversion Hg; subst p4. rewrite Ha3, lookup_insert_eq.
      split; [done|]. by rewrite Hw3, Hw2, Hw1, app_nil_r. }
  clear Hg Hw1 Hw2 Hw3 Ha3 Hclear Hloop.
  (* rng_seeds *)
  assert (attrs (simulator_state p5) !! "num_threads" = Some threads
          ∧ warnings_emitted p5
            = warnings_emitted p4
              ++ (if dict_has extra_params "rng_seeds" then [rng_seeds_warning] else [])
          ∧ (∀ seeds, dict_get extra_params "rng_seeds" = Some seeds →
               ∃ v, py_getitem0 seeds = Ok v))
    as (Hn5 & Hw5 & Hseeds).
  { unfold dict_has, dict_getitem in Hs |- *.
    destruct (dict_get extra_params "rng_seeds") as [seeds|].
    - apply bind_returns in Hs as (? & q & Hwarn & Hs).
      apply warnings_warn_returns in Hwarn as [Hq Hqw].
      apply bind_returns in Hs as (seeds' & ? & Hv & Hs).
      apply lift_returns in Hv as [Hv ->]. inversion Hv; subst seeds'.
      apply bind_returns in Hs as (v & ? & Hv0 & Hs).
      apply lift_returns in Hv0 as [Hv0 ->].
      apply setattr_returns in Hs as (-> & _ & ->).
      rewrite lookup_insert_ne by done. rewrite Hq.
      split; [done|]. split; [by rewrite Hqw|].
      intros ? [= <-]. eauto.
    - inversion Hs; subst p5. split; [done|]. split; [by rewrite app_nil_r|]. done. }
  clear Hs.
  (* rng_seeds_seed, or rng_seed, or 42 *)
  assert (attrs (simulator_state p6) !! "num_threads" = Some threads
          ∧ attrs (simulator_state p6) !! "rng_seed" = Some (resolved_seed extra_params)
          ∧ warnings_emitted p6
            = warnings_emitted p5
              ++ (if dict_has extra_params "rng_seeds_seed"
                  then ["The setup argument 'rng_seeds_seed' is now 'rng_seed'"] else []))
    as (Hn6 & Hseed6 & Hw6).
  { unfold resolved_seed. unfold dict_has, dict_getitem in Hss |- *.
    destruct (dict_get extra_params "rng_seeds_seed") as [s|].
    - apply bind_returns in Hss as (? & q & Hwarn & Hss).
      apply warnings_warn_returns in Hwarn as [Hq Hqw].
      apply bind_returns in Hss as (v & ? & Hv & Hss).
      apply lift_returns in Hv as [Hv ->]. inversion Hv; subst v.
      apply setattr_returns in Hss as (-> & _ & ->).
      rewrite lookup_insert_ne by done. rewrite lookup_insert_eq, Hq, Hqw. done.
    - apply setattr_returns in Hss as (-> & _ & ->).
      rewrite lookup_insert_ne by done. rewrite lookup_insert_eq, app_nil_r. done. }
  clear Hss.
  (* t_flush *)
  assert (attrs (simulator_state p7) !! "num_threads" = Some threads
          ∧ attrs (simulator_state p7) !! "rng_seed" = Some (resolved_seed extra_params)
          ∧ (∀ v, dict_get extra_params "t_flush" = Some v →
               attrs (simulator_state p7) !! "t_flush" = Some v)
          ∧ warnings_emitted p7 = warnings_emitted p6)
    as (Hn7 & Hseed7 & Hflush7 & Hw7).
  { unfold dict_has, dict_getitem in Hf.
    destruct (dict_get extra_params "t_flush") as [t|].
    - apply bind_returns in Hf as (v & ? & Hv & Hf).
      apply lift_returns in Hv as [Hv ->]. inversion Hv; subst v.
      apply setattr_returns in Hf as (-> & _ & ->).
      rewrite !lookup_insert_ne by done. rewrite lookup_insert_eq.
      split; [done|]. split; [done|]. split; [|done]. by intros ? [= <-].
    - inversion Hf; subst p7. split; [done|]. split; [done|]. split; [|done].
      intros ? [=]. }
  clear Hf.
  apply state_call_returns in Hdt as [Hst8 Hw8].
  apply state_call_returns in Hdel as [Hst9 Hw9].
  assert (simulator_state p10 = simulator_state p9
          ∧ warnings_emitted p10 = warnings_emitted p9) as [Hst10 Hw10].
  { unfold external in Hsd.
    destruct (nest_SetDefaults "spike_generator" [("precise_times", VBool true)] (world p9))
      as [o w]. by inversion Hsd. }
  rewrite Hst10, Hst9, Hst8, Hw10, Hw9, Hw8, Hw7, Hw6, Hw5, Hw4. cbn.
  rewrite !lookup_insert_ne by done.
  split; [done|]. split; [by rewrite <- !app_assoc|].
  split; [by exists threads|]. done.
Qed.

(** C9. When none of [rng_seed], [grng_seed], [rng_seeds] and
    [rng_seeds_seed] is given, a [setup] that returns, which it does
    when [common.setup], the session object and the engine accept what
    they are handed, has left [simulator.state.rng_seed] at 42 and
    emitted no warning. *)
Theorem setup_default_seed timestep min_delay extra_params p r p' :
  dict_has extra_params "rng_seed" = false →
  dict_has extra_params "grng_seed" = false →
  dict_has extra_params "rng_seeds" = false →
  dict_has extra_params "rng_seeds_seed" = false →
  setup DEFAULT_MAX_DELAY common_setup clear mpi_rank nest_SetDefaults state_check
    timestep min_delay extra_params p = (Ok r, p') →
  attrs (simulator_state p') !! "rng_seed" = Some (VInt 42)
  ∧ warnings_emitted p' = warnings_emitted p.
Proof.
  intros H1 H2 H3 H4 Hrun.
  apply setup_returns in Hrun as (Hseed & Hwarn & _).
  rewrite Hseed, Hwarn. unfold resolved_seed, seed_warnings.
  rewrite H2, H3, H4. apply dict_has_false in H1, H4. rewrite H1, H4.
  split; [reflexivity|]. by rewrite app_nil_r.
Qed.

(** C1, on the code. With [rng_seeds=[854947309, 470924491]] and no
    other seed option, [setup] emits the deprecation warning and assigns
    854947309, but the [else] of the next [if] then assigns the default:
    the seed that a [setup] which returns has left is 42. *)
Theorem setup_legacy_seed_list_overwritten timestep min_delay extra_params p r p' :
  dict_get extra_params "rng_seeds" = Some (VList [VInt 854947309; VInt 470924491]) →
  dict_has extra_params "rng_seed" = false →
  dict_has extra_params "grng_seed" = false →
  dict_has extra_params "rng_seeds_seed" = false →
  setup DEFAULT_MAX_DELAY common_setup clear mpi_rank nest_SetDefaults state_check
    timestep min_delay extra_params p = (Ok r, p') →
  attrs (simulator_state p') !! "rng_seed" = Some (VInt 42)
  ∧ warnings_emitted p' = warnings_emitted p ++ [rng_seeds_warning].
Proof.
  intros Hs H1 H2 H4 Hrun.
  apply setup_returns in Hrun as (Hseed & Hwarn & _).
  rewrite Hseed, Hwarn. unfold resolved_seed, seed_warnings.
  rewrite H2, H4. unfold dict_has at 1. rewrite Hs.
  apply dict_has_false in H1, H4. rewrite H1, H4. split; reflexivity.
Qed.

(** The check on a single number: the comparison of the source, on
    binary64 floats, whatever the interpreter. *)
Lemma discrepancy_check_on_scalar keys_index (parameters : list (string * float)) d d' p :
  dict_get parameters "delay" = Some d →
  _discrepancy_due_to_rounding keys_index parameters (Scalar d') p
  = (Ok (PrimFloat.ltb (PrimFloat.abs (PrimFloat.sub d d')) (dt (simulator_state p))), p).
Proof.
  intros Hd. unfold _discrepancy_due_to_rounding. rewrite Hd. reflexivity.
Qed.

(** Without a ['delay'] key the check answers [False]. *)
Lemma discrepancy_check_without_delay keys_index (parameters : list (string * float))
    output p :
  dict_get parameters "delay" = None →
  _discrepancy_due_to_rounding keys_index parameters output p = (Ok false, p).
Proof.
  intros Hd. unfold _discrepancy_due_to_rounding. by rewrite Hd.
Qed.

(** C3, on the code. When the realized values come as a sequence, the
    check asks the key view of [parameters] for [index] and raises
    [AttributeError], however close the declared and realized delays
    are: here both are 1.0, so they differ by less than any time step
    the session can have. *)
Theorem discrepancy_check_raises_on_sequence p :
  _discrepancy_due_to_rounding dict_keys_index [("delay", 1.0%float)] (Several [1.0%float]) p
  = (Raise (AttributeError "'dict_keys' object has no attribute 'index'"), p).
Proof.
  unfold _discrepancy_due_to_rounding. cbn [dict_get]. rewrite String.eqb_refl.
  unfold bind at 1. reflexivity.
Qed.

(** The same for every dictionary with a ['delay'] key and every
    sequence of realized values. *)
Lemma discrepancy_check_never_reads_sequences (parameters : list (string * float)) d xs p :
  dict_get parameters "delay" = Some d →
  _discrepancy_due_to_rounding dict_keys_index parameters (Several xs) p
  = (Raise (AttributeError "'dict_keys' object has no attribute 'index'"), p).
Proof.
  intros Hd. unfold _discrepancy_due_to_rounding. by rewrite Hd.
Qed.

(** A key that is in the dictionary has a position in its list of keys. *)
Lemma list_index_found {A} (d : list (string * A)) (k : string) (v : A) :
  dict_get d k = Some v → ∃ i, list_index (dict_keys d) k = Ok i ∧ i < length d.
Proof.
  induction d as [|[k' x] rest IH]; [discriminate|]. cbn.
  destruct (String.eqb k' k).
  - intros _. exists 0. split; [done|]. lia.
  - intros Hk. destruct (IH Hk) as (i & Hi & Hlt).
    unfold dict_keys in Hi. cbn in Hi. rewrite Hi. exists (S i). split; [done|]. lia.
Qed.

(** With a list for [keys()] the sequence branch did what the scalar
    one does, on the value found at the position of ['delay']. *)
Lemma discrepancy_check_on_sequence_with_list_keys
    (parameters : list (string * float)) d d' i xs p :
  dict_get parameters "delay" = Some d →
  list_index (dict_keys parameters) "delay" = Ok i →
  xs !! i = Some d' →
  _discrepancy_due_to_rounding list_index parameters (Several xs) p
  = (Ok (PrimFloat.ltb (PrimFloat.abs (PrimFloat.sub d d')) (dt (simulator_state p))), p).
Proof.
  intros Hd Hi Hx. unfold _discrepancy_due_to_rounding. rewrite Hd.
  unfold bind at 1. unfold bind at 1, lift at 1. rewrite Hi.
  unfold lift, seq_getitem. rewrite Hx. reflexivity.
Qed.

(** The first loop of [end]: it completes exactly when no handler and
    no write raises, and then it has logged one line and performed one
    write per pending tuple, in order. *)
Lemma write_loop_run (pending : list (pending_write Population)) :
  ∀ p,
    match world_after_writes recording_get_io write_data pending (world p) with
    | Ok w1 =>
        for_each pending
          (fun '(population, variables, filename) =>
             run logger_debug (label population +:+ py_str variables +:+ " --> " +:+ filename);
             do io <- external (recording_get_io filename) (fun _ => []);
             external (write_data population io variables)
                      (fun _ => [Wrote population variables filename])) p
        = (Ok tt,
           {| simulator_state := simulator_state p;
              warnings_emitted := warnings_emitted p;
              debug_log := debug_log p ++ debug_lines label py_str pending;
              effects := effects p ++ writes_of pending;
              world := w1 |})
    | Raise e =>
        ∃ p', for_each pending
                (fun '(population, variables, filename) =>
                   run logger_debug
                         (label population +:+ py_str variables +:+ " --> " +:+ filename);
                   do io <- external (recording_get_io filename) (fun _ => []);
                   external (write_data population io variables)
                            (fun _ => [Wrote population variables filename])) p
              = (Raise e, p')
    end.
Proof.
  induction pending as [|[[population variables] filename] rest IH]; intros p.
  - cbn. rewrite !app_nil_r. by destruct p.
  - cbn [world_after_writes].
    destruct (recording_get_io filename (world p)) as [[io|e] wa] eqn:Hio.
    + destruct (write_data population io variables wa) as [[[]|e] wb] eqn:Hwd.
      * match goal with |- context [world_after_writes _ _ rest wb] =>
          specialize (IH {| simulator_state := simulator_state p;
                            warnings_emitted := warnings_emitted p;
                            debug_log := debug_log p
                              ++ [label population +:+ py_str variables +:+ " --> " +:+ filename];
                            effects := (effects p ++ [])
                              ++ [Wrote population variables filename];
                            world := wb |}) end.
        cbn [world] in IH.
        assert (∀ body, for_each ((population, variables, filename) :: rest) body p
                        = (run body (population, variables, filename); for_each rest body) p)
          as Hstep by reflexivity.
        destruct (world_after_writes recording_get_io write_data rest wb) as [w1|e].
        -- rewrite Hstep. unfold bind at 1. unfold bind at 1, logger_debug at 1, modify at 1.
           unfold bind at 1, external at 1. cbn [world]. rewrite Hio.
           unfold external at 1. cbn [world]. rewrite Hwd.
           cbn [simulator_state warnings_emitted debug_log effects world].
           rewrite IH. cbn. by rewrite !app_nil_r, <- !app_assoc.
        -- destruct IH as [p' IH]. exists p'.
           rewrite Hstep. unfold bind at 1. unfold bind at 1, logger_debug at 1, modify at 1.
           unfold bind at 1, external at 1. cbn [world]. rewrite Hio.
           unfold external at 1. cbn [world]. rewrite Hwd.
           cbn [simulator_state warnings_emitted debug_log effects world].
           exact IH.
      * eexists. cbn [for_each]. unfold bind at 1.
        unfold bind at 1, logger_debug at 1, modify at 1.
        unfold bind at 1, external at 1. cbn [world]. rewrite Hio.
        unfold external at 1. cbn [world]. rewrite Hwd. reflexivity.
    + eexists. cbn [for_each]. unfold bind at 1.
      unfold bind at 1, logger_debug at 1, modify at 1.
      unfold bind at 1, external at 1. cbn [world]. rewrite Hio. reflexivity.
Qed.

(** The second loop of [end]: it completes exactly when no removal
    raises, and then it has removed each directory once, in order. *)
Lemma removal_loop_run (dirs : list string) :
  ∀ p,
    match world_after_removals shutil_rmtree dirs (world p) with
    | Ok w1 =>
        for_each dirs
          (fun tempdir => external (shutil_rmtree tempdir) (fun _ => [Removed tempdir])) p
        = (Ok tt,
           {| simulator_state := simulator_state p;
              warnings_emitted := warnings_emitted p;
              debug_log := debug_log p;
              effects := effects p ++ removals_of dirs;
              world := w1 |})
    | Raise e =>
        ∃ p', for_each dirs
                (fun tempdir => external (shutil_rmtree tempdir) (fun _ => [Removed tempdir])) p
              = (Raise e, p')
    end.
Proof.
  induction dirs as [|tempdir rest IH]; intros p.
  - cbn. rewrite !app_nil_r. by destruct p.
  - cbn [world_after_removals].
    destruct (shutil_rmtree tempdir (world p)) as [[[]|e] wa] eqn:Hrm.
    + specialize (IH {| simulator_state := simulator_state p;
                        warnings_emitted := warnings_emitted p;
                        debug_log := debug_log p;
                        effects := effects p ++ [Removed tempdir];
                        world := wa |}).
      cbn [world] in IH.
      destruct (world_after_removals shutil_rmtree rest wa) as [w1|e].
      * cbn [for_each]. unfold bind at 1, external at 1. rewrite Hrm.
        rewrite IH. cbn. by rewrite <- !app_assoc.
      * destruct IH as [p' IH]. exists p'.
        cbn [for_each]. unfold bind at 1, external at 1. rewrite Hrm. exact IH.
    + eexists. cbn [for_each]. unfold bind at 1, external at 1. rewrite Hrm. reflexivity.
Qed.

(** [end] completes exactly when both loops do, and then leaves
    [ended p w]; otherwise it raises what a collaborator raised. *)
Lemma end_run p :
  match world_after_writes recording_get_io write_data
          (write_on_end (simulator_state p)) (world p) with
  | Ok w1 =>
      match world_after_removals shutil_rmtree (tempdirs (simulator_state p)) w1 with
      | Ok w2 =>
          end_ label py_str recording_get_io write_data shutil_rmtree p
          = (Ok tt, ended label py_str p w2)
      | Raise e =>
          ∃ p', end_ label py_str recording_get_io write_data shutil_rmtree p = (Raise e, p')
      end
  | Raise e =>
      ∃ p', end_ label py_str recording_get_io write_data shutil_rmtree p = (Raise e, p')
  end.
Proof.
  pose proof (write_loop_run (write_on_end (simulator_state p)) p) as Hw.
  destruct (world_after_writes recording_get_io write_data
              (write_on_end (simulator_state p)) (world p)) as [w1|e].
  - pose proof (removal_loop_run (tempdirs (simulator_state p))
                  {| simulator_state := simulator_state p;
                     warnings_emitted := warnings_emitted p;
                     debug_log := debug_log p
                       ++ debug_lines label py_str (write_on_end (simulator_state p));
                     effects := effects p ++ writes_of (write_on_end (simulator_state p));
                     world := w1 |}) as Hr.
    cbn [world] in Hr.
    destruct (world_after_removals shutil_rmtree (tempdirs (simulator_state p)) w1)
      as [w2|e].
    + unfold end_. unfold bind at 1, gets at 1. unfold bind at 1. rewrite Hw.
      unfold bind at 1, gets at 1. cbn [simulator_state]. unfold bind at 1.
      rewrite Hr. cbn. unfold ended. by rewrite <- app_assoc.
    + destruct Hr as [p' Hr]. exists p'.
      unfold end_. unfold bind at 1, gets at 1. unfold bind at 1. rewrite Hw.
      unfold bind at 1, gets at 1. cbn [simulator_state]. unfold bind at 1.
      by rewrite Hr.
  - destruct Hw as [p' Hw]. exists p'.
    unfold end_. unfold bind at 1, gets at 1. unfold bind at 1. by rewrite Hw.
Qed.

(** C4. [end] performs one write per pending tuple and one removal per
    temporary directory, in order, and leaves both lists empty: this is
    the process it returns whenever no handler, write or removal raises,
    and the only one it can return. With both lists empty it raises
    nothing and changes nothing. *)
Theorem end_flushes_and_clears p :
  (∀ w1 w2,
     world_after_writes recording_get_io write_data
       (write_on_end (simulator_state p)) (world p) = Ok w1 →
     world_after_removals shutil_rmtree (tempdirs (simulator_state p)) w1 = Ok w2 →
     end_ label py_str recording_get_io write_data shutil_rmtree p
     = (Ok tt, ended label py_str p w2))
  ∧ (∀ p', end_ label py_str recording_get_io write_data shutil_rmtree p = (Ok tt, p') →
       effects p' = effects p ++ writes_of (write_on_end (simulator_state p))
                              ++ removals_of (tempdirs (simulator_state p))
       ∧ write_on_end (simulator_state p') = []
       ∧ tempdirs (simulator_state p') = [])
  ∧ (write_on_end (simulator_state p) = [] → tempdirs (simulator_state p) = [] →
     end_ label py_str recording_get_io write_data shutil_rmtree p = (Ok tt, p)).
Proof.
  pose proof (end_run p) as Hrun. split; [|split].
  - intros w1 w2 Hw Hr. by rewrite Hw, Hr in Hrun.
  - intros p' Hend.
    destruct (world_after_writes recording_get_io write_data
                (write_on_end (simulator_state p)) (world p)) as [w1|e].
    + destruct (world_after_removals shutil_rmtree (tempdirs (simulator_state p)) w1)
        as [w2|e].
      * rewrite Hrun in Hend. inversion Hend; subst p'. done.
      * destruct Hrun as [q Hq]. rewrite Hq in Hend. discriminate.
    + destruct Hrun as [q Hq]. rewrite Hq in Hend. discriminate.
  - intros Hpending Hdirs. rewrite Hpending, Hdirs in Hrun.
    cbn [world_after_writes world_after_removals] in Hrun.
    rewrite Hrun. f_equal. unfold ended. rewrite Hpending, Hdirs. cbn.
    rewrite !app_nil_r. destruct p as [st ws dl es w]. destruct st. cbn in *.
    by subst.
Qed.

End SessionFacts.

(** ** The session functions on the example session *)

Lemma setup_default_seed_witness :
  attrs (simulator_state
           (Example.run_setup 0.1 (VStr "auto") [("threads", VInt 4)]).2) !! "rng_seed"
  = Some (VInt 42)
  ∧ warnings_emitted (Example.run_setup 0.1 (VStr "auto") [("threads", VInt 4)]).2 = [].
Proof.
  assert (Example.run_setup 0.1 (VStr "auto") [("threads", VInt 4)]
          = (Ok (VInt 0), (Example.run_setup 0.1 (VStr "auto") [("threads", VInt 4)]).2))
    as Hrun by (vm_compute; reflexivity).
  exact (setup_default_seed string (list string) (VFloat 10) (fun _ _ _ => Ok tt)
           Example.clear (fun _ => VInt 0) Example.SetDefaults_ok Example.state_check
           0.1%float (VStr "auto") [("threads", VInt 4)] Example.fresh _ _
           eq_refl eq_refl eq_refl eq_refl Hrun).
Defined.

Lemma setup_legacy_seed_list_overwritten_witness :
  attrs (simulator_state
           (Example.run_setup 0.1 (VStr "auto")
              [("rng_seeds", VList [VInt 854947309; VInt 470924491])]).2) !! "rng_seed"
  = Some (VInt 42)
  ∧ warnings_emitted
      (Example.run_setup 0.1 (VStr "auto")
         [("rng_seeds", VList [VInt 854947309; VInt 470924491])]).2
    = [rng_seeds_warning].
Proof.
  assert (Example.run_setup 0.1 (VStr "auto")
            [("rng_seeds", VList [VInt 854947309; VInt 470924491])]
          = (Ok (VInt 0),
             (Example.run_setup 0.1 (VStr "auto")
                [("rng_seeds", VList [VInt 854947309; VInt 470924491])]).2))
    as Hrun by (vm_compute; reflexivity).
  exact (setup_legacy_seed_list_overwritten string (list string) (VFloat 10)
           (fun _ _ _ => Ok tt) Example.clear (fun _ => VInt 0)
           Example.SetDefaults_ok Example.state_check 0.1%float (VStr "auto")
           [("rng_seeds", VList [VInt 854947309; VInt 470924491])] Example.fresh _ _
           eq_refl eq_refl eq_refl eq_refl Hrun).
Defined.

(** The session object of the example refuses an unknown spike
    precision and a seed that does not fit in 32 bits: [setup] raises
    what it raises, in the first case before it comes to the seed. *)
Lemma setup_refused_by_session :
  (Example.run_setup 0.1 (VStr "auto") [("spike_precision", VStr "bogus")]).1
  = Raise (ValueError "spike_precision must be 'on_grid' or 'off_grid'")
  ∧ attrs (simulator_state
             (Example.run_setup 0.1 (VStr "auto")
                [("spike_precision", VStr "bogus")]).2) !! "rng_seed" = None
  ∧ (Example.run_setup 0.1 (VStr "auto") [("rng_seed", VInt 4294967296)]).1
    = Raise (NESTError "BadProperty").
Proof. vm_compute. done. Qed.

Lemma end_flushes_and_clears_witness :
  Example.run_end Example.recorded = (Ok tt, Example.flushed)
  ∧ effects Example.flushed
    = [Wrote "exc" (VList [VStr "spikes"]) "exc.pkl"; Removed "/tmp/pynn_a"]
  ∧ write_on_end (simulator_state Example.flushed) = []
  ∧ tempdirs (simulator_state Example.flushed) = [].
Proof.
  assert (Example.run_end Example.recorded = (Ok tt, Example.flushed)) as Hrun
    by (vm_compute; reflexivity).
  split; [exact Hrun|].
  exact (proj1 (proj2 (end_flushes_and_clears string (fun population => population)
                         string (list string) Example.str Example.get_io
                         Example.write_data Example.rmtree Example.recorded))
           Example.flushed Hrun).
Defined.

(** * More on the reflection of native models *)

Section MoreLoopFacts.

Variable make_pynn_compatible : value -> value.

(** Nothing leaves the two dictionaries during the loop, and each entry
    that takes the first or the second branch leaves its key behind,
    repeated keys or not. *)
Lemma get_defaults_loop_keys variables items :
  ∀ P I ws P' I' ws',
    get_defaults_loop make_pynn_compatible variables items P I ws = (Ok (P', I'), ws') →
    ∀ name,
      (is_Some (P !! name) → is_Some (P' !! name))
      ∧ (is_Some (I !! name) → is_Some (I' !! name))
      ∧ (name ∈ dict_keys items → py_contains variables name = Ok true →
         is_Some (I' !! name))
      ∧ (∀ v, (name, v) ∈ items → accepted variables name v → is_Some (P' !! name)).
Proof.
  unfold accepted, type_tested, dict_keys.
  induction items as [|[n x] rest IH]; intros P I ws P' I' ws' Hrun name.
  - unfold get_defaults_loop, ret in Hrun. inversion Hrun; subst.
    split; [done|]. split; [done|]. split.
    + intros Hin. inversion Hin.
    + intros v Hin. inversion Hin.
  - simpl in Hrun. unfold bind at 1, lift at 1 in Hrun.
    destruct (py_contains variables n) as [[|]|e] eqn:Hc; [| |discriminate].
    + destruct (IH _ _ _ _ _ _ Hrun name) as (HP & HI & HIn & HPn).
      split; [exact HP|]. split; [|split].
      * intros Hs. apply HI. destruct (decide (n = name)) as [->|Hne].
        -- rewrite lookup_insert_eq. eauto.
        -- by rewrite lookup_insert_ne.
      * rewrite fmap_cons, elem_of_cons. cbn. intros [->|Hin] Hcn.
        -- apply HI. rewrite lookup_insert_eq. eauto.
        -- by apply HIn.
      * intros v Hin Hacc. apply elem_of_cons in Hin as [Heq|Hin].
        -- inversion Heq; subst. destruct Hacc as [[Hf _] _]. congruence.
        -- by apply (HPn v).
    + destruct (bool_decide (n ∉ ignore)) eqn:Hi; simpl in Hrun.
      * destruct (isinstance_valid_types x) eqn:Hv; simpl in Hrun.
        -- destruct (IH _ _ _ _ _ _ Hrun name) as (HP & HI & HIn & HPn).
           split; [|split; [exact HI|split]].
           ++ intros Hs. apply HP. destruct (decide (n = name)) as [->|Hne].
              ** rewrite lookup_insert_eq. eauto.
              ** by rewrite lookup_insert_ne.
           ++ rewrite fmap_cons, elem_of_cons. cbn. intros [->|Hin] Hcn; [congruence|].
              by apply HIn.
           ++ intros v Hin Hacc. apply elem_of_cons in Hin as [Heq|Hin].
              ** inversion Heq; subst. apply HP. rewrite lookup_insert_eq. eauto.
              ** by apply (HPn v).
        -- unfold bind at 1, warn, modify in Hrun. simpl in Hrun.
           destruct (IH _ _ _ _ _ _ Hrun name) as (HP & HI & HIn & HPn).
           split; [exact HP|]. split; [exact HI|]. split.
           ++ rewrite fmap_cons, elem_of_cons. cbn. intros [->|Hin] Hcn; [congruence|].
              by apply HIn.
           ++ intros v Hin Hacc. apply elem_of_cons in Hin as [Heq|Hin].
              ** inversion Heq; subst. destruct Hacc as [_ Hx]. congruence.
              ** by apply (HPn v).
      * apply bool_decide_eq_false in Hi.
        destruct (IH _ _ _ _ _ _ Hrun name) as (HP & HI & HIn & HPn).
        split; [exact HP|]. split; [exact HI|]. split.
        -- rewrite fmap_cons, elem_of_cons. cbn. intros [->|Hin] Hcn; [congruence|].
           by apply HIn.
        -- intros v Hin Hacc. apply elem_of_cons in Hin as [Heq|Hin].
           ++ inversion Heq; subst. destruct Hacc as [[_ Hout] _]. contradiction.
           ++ by apply (HPn v).
Qed.

End MoreLoopFacts.
Section MoreCellsFacts.

Variable nest_GetDefaults : string -> outcome dict.
Variable nest_GetDefaults_recordables : string -> outcome (list string).
Variable nest_GetDefaults_element_type : string -> outcome string.
Variable make_pynn_compatible : value -> value.

(** The remaining attributes of the class a successful
    [native_cell_type] returns. *)
Lemma native_cell_type_fields model ws desc ws' :
  native_cell_type nest_GetDefaults nest_GetDefaults_recordables
    nest_GetDefaults_element_type make_pynn_compatible model ws = (Ok desc, ws') →
  ∃ defaults reported,
    nest_GetDefaults model = Ok defaults
    ∧ get_defaults_loop make_pynn_compatible (variables_of defaults) defaults ∅ ∅ ws
      = (Ok (default_parameters desc, default_initial_values desc), ws')
    ∧ py_list (default (VTuple [VStr "excitatory"; VStr "inhibitory"])
                       (dict_get defaults "receptor_types")) = Ok (receptor_types desc)
    ∧ get_recordables nest_GetDefaults_recordables model ws' = (Ok reported, ws')
    ∧ recordable desc = reported ++ ["spikes"]
    ∧ g_in_first_letters (recordable desc) = Ok (conductance_based desc)
    ∧ nest_model desc = model
    ∧ injectable desc = bool_decide (is_Some (default_initial_values desc !! "V_m"))
    ∧ standard_receptor_type desc = is_standard_receptors (receptor_types desc).
Proof.
  unfold native_cell_type. unfold bind at 1.
  destruct (get_defaults nest_GetDefaults make_pynn_compatible model ws)
    as [[[P I]|e] ws1] eqn:Hd; [|discriminate].
  apply get_defaults_inv in Hd as (defaults & Hq & Hloop).
  unfold bind at 1. unfold get_receptor_types, bind at 1, lift at 1. rewrite Hq.
  unfold lift at 1. destruct (py_list _) as [receptors|e] eqn:Hr; [|discriminate].
  unfold bind at 1.
  destruct (get_recordables_cases nest_GetDefaults_recordables model ws1)
    as [(names & _ & Hn)|[(msg & _ & Hn)|(e & _ & Hn)]]; rewrite Hn; [| |discriminate].
  - unfold bind at 1, lift at 1.
    destruct (nest_GetDefaults_element_type model) as [et|e]; [|discriminate].
    unfold bind at 1, lift at 1.
    destruct (g_in_first_letters _) as [cb|e] eqn:Hg; [|discriminate].
    unfold ret. intros [= <- <-]. cbn. exists defaults, names. eauto 10.
  - unfold bind at 1, lift at 1.
    destruct (nest_GetDefaults_element_type model) as [et|e]; [|discriminate].
    unfold bind at 1, lift at 1.
    destruct (g_in_first_letters _) as [cb|e] eqn:Hg; [|discriminate].
    unfold ret. intros [= <- <-]. cbn. exists defaults, []. eauto 10.
Qed.

(** X1. An engine error on [nest.GetDefaults(model_name)], such as an
    unknown model name, leaves [get_defaults], [get_receptor_types] and
    [native_cell_type] by the same exception, with no warning emitted:
    only [get_recordables] swallows engine errors. *)
Theorem engine_error_propagates model e ws :
  nest_GetDefaults model = Raise e →
  get_defaults nest_GetDefaults make_pynn_compatible model ws = (Raise e, ws)
  ∧ get_receptor_types nest_GetDefaults model ws = (Raise e, ws)
  ∧ native_cell_type nest_GetDefaults nest_GetDefaults_recordables
      nest_GetDefaults_element_type make_pynn_compatible model ws = (Raise e, ws).
Proof.
  intros Hq.
  assert (get_defaults nest_GetDefaults make_pynn_compatible model ws = (Raise e, ws)) as Hd.
  { unfold get_defaults, bind, lift. by rewrite Hq. }
  split; [exact Hd|]. split.
  - unfold get_receptor_types, bind, lift. by rewrite Hq.
  - unfold native_cell_type. unfold bind at 1. by rewrite Hd.
Qed.

(** X2. [get_recordables] hands back the engine's list as it is, and
    lets every exception that is not a [NESTError] through. *)
Theorem get_recordables_passes_through model ws :
  (∀ names, nest_GetDefaults_recordables model = Ok names →
     get_recordables nest_GetDefaults_recordables model ws = (Ok names, ws))
  ∧ (∀ e, nest_GetDefaults_recordables model = Raise e →
       (∀ msg, e ≠ NESTError msg) →
       get_recordables nest_GetDefaults_recordables model ws = (Raise e, ws)).
Proof.
  split.
  - intros names Hq. unfold get_recordables, except_NESTError, bind, lift, ret.
    by rewrite Hq.
  - intros e Hq Hne. unfold get_recordables, except_NESTError, bind, lift, ret.
    rewrite Hq. destruct e; try reflexivity. by destruct (Hne msg).
Qed.

(** X3. No name is both a parameter and an initial value of the class,
    and every name in either dictionary is a key of what the engine
    reported for the model. *)
Theorem parameters_and_initial_values_apart model ws desc ws' defaults :
  native_cell_type nest_GetDefaults nest_GetDefaults_recordables
    nest_GetDefaults_element_type make_pynn_compatible model ws = (Ok desc, ws') →
  nest_GetDefaults model = Ok defaults →
  ∀ name,
    (is_Some (default_parameters desc !! name) →
       default_initial_values desc !! name = None ∧ name ∈ dict_keys defaults)
    ∧ (is_Some (default_initial_values desc !! name) →
         default_parameters desc !! name = None ∧ name ∈ dict_keys defaults).
Proof.
  intros Hrun Hq name.
  apply native_cell_type_fields in Hrun as (defaults' & _ & Hq' & Hloop & _).
  rewrite Hq in Hq'. inversion Hq'; subst defaults'. clear Hq'.
  apply get_defaults_loop_spec in Hloop as (_ & HP & HI & _).
  assert (∀ v', default_parameters desc !! name = Some v' →
            py_contains (variables_of defaults) name = Ok false
            ∧ name ∈ dict_keys defaults) as HP'.
  { intros v' Hl. destruct (HP name v' Hl) as [Hempty|(v & Hin & [[Hc _] _] & _)].
    - by rewrite lookup_empty in Hempty.
    - split; [done|]. apply list_elem_of_fmap. by exists (name, v). }
  assert (∀ v, default_initial_values desc !! name = Some v →
            py_contains (variables_of defaults) name = Ok true
            ∧ name ∈ dict_keys defaults) as HI'.
  { intros v Hl. destruct (HI name v Hl) as [Hempty|[Hin Hc]].
    - by rewrite lookup_empty in Hempty.
    - split; [done|]. apply list_elem_of_fmap. by exists (name, v). }
  split.
  - intros [v' Hl]. destruct (HP' v' Hl) as [Hc Hin]. split; [|done].
    destruct (default_initial_values desc !! name) as [v|] eqn:Hi; [|done].
    destruct (HI' v eq_refl) as [Hc' _]. congruence.
  - intros [v Hl]. destruct (HI' v Hl) as [Hc Hin]. split; [|done].
    destruct (default_parameters desc !! name) as [v'|] eqn:Hp; [|done].
    destruct (HP' v' eq_refl) as [Hc' _]. congruence.
Qed.

(** X4. The class is injectable exactly when the engine's defaults have
    an entry [V_m] that the model's recordables list. *)
Theorem injectable_iff_V_m_recordable model ws desc ws' defaults :
  native_cell_type nest_GetDefaults nest_GetDefaults_recordables
    nest_GetDefaults_element_type make_pynn_compatible model ws = (Ok desc, ws') →
  nest_GetDefaults model = Ok defaults →
  injectable desc = true
  ↔ "V_m" ∈ dict_keys defaults ∧ py_contains (variables_of defaults) "V_m" = Ok true.
Proof.
  intros Hrun Hq.
  apply native_cell_type_fields
    in Hrun as (defaults' & _ & Hq' & Hloop & _ & _ & _ & _ & _ & -> & _).
  rewrite Hq in Hq'. inversion Hq'; subst defaults'. clear Hq'.
  rewrite bool_decide_eq_true. split.
  - intros [v Hl].
    apply get_defaults_loop_spec in Hloop as (_ & _ & HI & _).
    destruct (HI "V_m" v Hl) as [Hempty|[Hin Hc]].
    + by rewrite lookup_empty in Hempty.
    + split; [|done]. apply list_elem_of_fmap. by exists ("V_m", v).
  - intros [Hin Hc].
    destruct (get_defaults_loop_keys _ _ _ _ _ _ _ _ _ Hloop "V_m") as (_ & _ & HI & _).
    by apply HI.
Qed.

Lemma g_in_first_letters_true (names : list string) (b : bool) :
  g_in_first_letters names = Ok b → (b = true ↔ Exists starts_with_g names).
Proof.
  unfold starts_with_g.
  induction names as [|s names IH]; cbn [g_in_first_letters].
  - intros [= <-]. split; [discriminate|]. intros H. inversion H.
  - destruct s as [|c s]; [discriminate|].
    destruct (String.eqb (String c EmptyString) "g") eqn:Hc.
    + intros [= <-]. split; [|done]. intros _. apply Exists_cons. left.
      apply String.eqb_eq in Hc. inversion Hc; subst c. by exists s.
    + intros Hrest. rewrite (IH Hrest). rewrite Exists_cons. split; [by right|].
      intros [[rest Heq]|?]; [|done]. cbn in Heq. inversion Heq; subst.
      by rewrite String.eqb_refl in Hc.
Qed.

Lemma dict_get_keys {A} (d : list (string * A)) (k : string) :
  k ∈ dict_keys d ↔ is_Some (dict_get d k).
Proof.
  unfold dict_keys. induction d as [|[k' v] rest IH]; cbn.
  - split; [intros H; inversion H|intros [? ?]; discriminate].
  - rewrite elem_of_cons. destruct (String.eqb k' k) eqn:Hk.
    + apply String.eqb_eq in Hk as ->. split; [eauto|by left].
    + apply String.eqb_neq in Hk. rewrite <- IH. split; [|by right].
      intros [->|?]; [contradiction|done].
Qed.

(** X5. [conductance_based] is true exactly when one of the recordables
    [get_recordables] returned has a name whose first letter is [g];
    the appended ['spikes'] never counts. *)
Theorem conductance_based_iff_g_recordable model ws desc ws' reported :
  native_cell_type nest_GetDefaults nest_GetDefaults_recordables
    nest_GetDefaults_element_type make_pynn_compatible model ws = (Ok desc, ws') →
  get_recordables nest_GetDefaults_recordables model ws' = (Ok reported, ws') →
  conductance_based desc = true ↔ ∃ name, name ∈ reported ∧ starts_with_g name.
Proof.
  intros Hrun Hr.
  apply native_cell_type_fields
    in Hrun as (_ & reported' & _ & _ & _ & Hr' & Hrec & Hg & _).
  rewrite Hr in Hr'. inversion Hr'; subst reported'. clear Hr'.
  rewrite (g_in_first_letters_true _ _ Hg), Hrec, Exists_app, !Exists_exists.
  split.
  - intros [?|(name & Hin & rest & Heq)]; [done|].
    apply list_elem_of_singleton in Hin as ->. cbn in Heq. discriminate.
  - intros ?. by left.
Qed.

(** X6. The receptor types of the class are the keys of the engine's
    [receptor_types] dictionary, in its order, and the two standard
    names when the engine has no such entry; [standard_receptor_type]
    holds in the second case, and in the first exactly when the keys
    are ['excitatory'] then ['inhibitory']. *)
Theorem receptor_types_reported_or_standard model ws desc ws' defaults :
  native_cell_type nest_GetDefaults nest_GetDefaults_recordables
    nest_GetDefaults_element_type make_pynn_compatible model ws = (Ok desc, ws') →
  nest_GetDefaults model = Ok defaults →
  (dict_get defaults "receptor_types" = None →
     receptor_types desc = [VStr "excitatory"; VStr "inhibitory"]
     ∧ standard_receptor_type desc = true)
  ∧ (∀ receptors, dict_get defaults "receptor_types" = Some (VDict receptors) →
       receptor_types desc = VStr <$> dict_keys receptors
       ∧ (standard_receptor_type desc = true
          ↔ dict_keys receptors = ["excitatory"; "inhibitory"])).
Proof.
  intros Hrun Hq.
  apply native_cell_type_fields
    in Hrun as (defaults' & _ & Hq' & _ & Hl & _ & _ & _ & _ & _ & ->).
  rewrite Hq in Hq'. inversion Hq'; subst defaults'. clear Hq'. split.
  - intros Hnone. rewrite Hnone in Hl. cbn in Hl. inversion Hl. done.
  - intros receptors Hsome. rewrite Hsome in Hl. cbn in Hl. inversion Hl as [Heq].
    split; [done|]. unfold dict_keys.
    destruct (receptors.*1) as [|a [|b [|c ks]]]; cbn; try (split; discriminate).
    rewrite andb_true_iff, !String.eqb_eq. split; [by intros [-> ->]|].
    intros [= -> ->]. done.
Qed.

(** X7. With a [receptor_types] dictionary in the engine's defaults,
    [get_receptor_type] resolves exactly the names the class lists as
    its receptor types, each to the engine's value, and raises
    [KeyError] on every other name. *)
Theorem get_receptor_type_resolves_listed model ws desc ws' defaults receptors name ws0 :
  native_cell_type nest_GetDefaults nest_GetDefaults_recordables
    nest_GetDefaults_element_type make_pynn_compatible model ws = (Ok desc, ws') →
  nest_GetDefaults model = Ok defaults →
  dict_get defaults "receptor_types" = Some (VDict receptors) →
  (VStr name ∈ receptor_types desc →
     ∃ v, dict_get receptors name = Some v
          ∧ get_receptor_type nest_GetDefaults desc name ws0 = (Ok v, ws0))
  ∧ (VStr name ∉ receptor_types desc →
       get_receptor_type nest_GetDefaults desc name ws0 = (Raise (KeyError name), ws0)).
Proof.
  intros Hrun Hq Hsome.
  apply native_cell_type_fields
    in Hrun as (defaults' & _ & Hq' & _ & Hl & _ & _ & _ & Hm & _).
  rewrite Hq in Hq'. inversion Hq'; subst defaults'. clear Hq'.
  rewrite Hsome in Hl. cbn in Hl. inversion Hl as [Heq].
  assert (VStr name ∈ VStr <$> dict_keys receptors ↔ is_Some (dict_get receptors name))
    as Hlisted.
  { rewrite <- dict_get_keys. rewrite list_elem_of_fmap. split.
    - intros (k & [= ->] & Hin). done.
    - intros Hin. by exists name. }
  unfold get_receptor_type, bind, lift, dict_getitem. rewrite Hm, Hq, Hsome. cbn.
  split.
  - intros Hin. apply Hlisted in Hin as [v Hv]. exists v. by rewrite Hv.
  - intros Hout. destruct (dict_get receptors name) as [v|] eqn:Hv; [|done].
    destruct Hout. apply Hlisted. eauto.
Qed.

(** X8. When the engine's defaults have no [receptor_types] entry the
    class still lists ['excitatory'] and ['inhibitory'], but
    [get_receptor_type] raises [KeyError] for every name, these two
    included. *)
Theorem get_receptor_type_without_engine_entry model ws desc ws' defaults :
  native_cell_type nest_GetDefaults nest_GetDefaults_recordables
    nest_GetDefaults_element_type make_pynn_compatible model ws = (Ok desc, ws') →
  nest_GetDefaults model = Ok defaults →
  dict_get defaults "receptor_types" = None →
  receptor_types desc = [VStr "excitatory"; VStr "inhibitory"]
  ∧ ∀ name ws0,
      get_receptor_type nest_GetDefaults desc name ws0
      = (Raise (KeyError "receptor_types"), ws0).
Proof.
  intros Hrun Hq Hnone.
  apply native_cell_type_fields
    in Hrun as (defaults' & _ & Hq' & _ & Hl & _ & _ & _ & Hm & _).
  rewrite Hq in Hq'. inversion Hq'; subst defaults'. clear Hq'.
  rewrite Hnone in Hl. cbn in Hl. inversion Hl as [Heq]. split; [done|].
  intros name ws0. unfold get_receptor_type, bind, lift, dict_getitem.
  by rewrite Hm, Hq, Hnone.
Qed.

End MoreCellsFacts.

(** * More on the session functions *)

Section MoreSetupFacts.

Variable Population : Type.
Variable World : Type.
Variable DEFAULT_MAX_DELAY : value.
Variable common_setup : float -> value -> dict -> outcome unit.
Variable clear : State Population -> World -> outcome (State Population) * World.
Variable mpi_rank : State Population -> value.
Variable nest_SetDefaults : string -> dict -> World -> outcome unit * World.
Variable state_check :
  string -> list value -> State Population -> World -> outcome unit * World.

Implicit Types p : Process Population World.
Implicit Types st : State Population.







(** X9. Among the seed options the last test of [setup] decides: in a
    [setup] that returns, [rng_seeds_seed] wins when given, otherwise
    [rng_seed] when given, whatever [grng_seed] and [rng_seeds] hold;
    each deprecated option that is given has added its warning, in the
    order [grng_seed], [rng_seeds], [rng_seeds_seed]. *)
Theorem setup_seed_precedence timestep lo extra_params p r p' :
  setup DEFAULT_MAX_DELAY common_setup clear mpi_rank nest_SetDefaults state_check
    timestep lo extra_params p = (Ok r, p') →
  (∀ v, dict_get extra_params "rng_seeds_seed" = Some v →
     attrs (simulator_state p') !! "rng_seed" = Some v)
  ∧ (dict_get extra_params "rng_seeds_seed" = None →
     ∀ v, dict_get extra_params "rng_seed" = Some v →
       attrs (simulator_state p') !! "rng_seed" = Some v)
  ∧ warnings_emitted p' = warnings_emitted p ++ seed_warnings extra_params.
Proof.
  intros Hrun. apply setup_returns in Hrun as (Hseed & Hw & _).
  rewrite Hseed. unfold resolved_seed.
  split; [|split; [|exact Hw]].
  - by intros v ->.
  - by intros -> v ->.
Qed.

(** X10. When [common.setup] rejects the arguments, [setup] raises the
    same exception before anything is touched: the session is not
    cleared, no warning is emitted, the engine is not called. *)
Theorem setup_rejected_leaves_session timestep lo extra_params e p :
  common_setup timestep lo extra_params = Raise e →
  setup DEFAULT_MAX_DELAY common_setup clear mpi_rank nest_SetDefaults state_check
    timestep lo extra_params p = (Raise e, p).
Proof.
  intros Hcs. unfold setup. unfold bind at 1, lift at 1. by rewrite Hcs.
Qed.


(** X12. A [setup] that returns has left [num_threads] at 1 when
    [threads] is not given, and at [threads] when it is given and true
    in a test. *)
Theorem setup_thread_count timestep lo extra_params p r p' :
  setup DEFAULT_MAX_DELAY common_setup clear mpi_rank nest_SetDefaults state_check
    timestep lo extra_params p = (Ok r, p') →
  (dict_get extra_params "threads" = None →
     attrs (simulator_state p') !! "num_threads" = Some (VInt 1))
  ∧ (∀ v, dict_get extra_params "threads" = Some v → py_truthy v = Ok true →
       attrs (simulator_state p') !! "num_threads" = Some v).
Proof.
  intros Hrun.
  apply setup_returns in Hrun as (_ & _ & (threads & Hthreads & Hnt) & _).
  rewrite Hnt. unfold py_or in Hthreads. split.
  - intros Hnone. rewrite Hnone in Hthreads. cbn in Hthreads. congruence.
  - intros v Hv Ht. rewrite Hv in Hthreads. cbn in Hthreads. rewrite Ht in Hthreads.
    congruence.
Qed.


End MoreSetupFacts.

Section MoreEndFacts.

Variable Population : Type.
Variable label : Population -> string.
Variable IO : Type.
Variable World : Type.
Variable py_str : value -> string.
Variable recording_get_io : string -> World -> outcome IO * World.
Variable write_data : Population -> IO -> value -> World -> outcome unit * World.
Variable shutil_rmtree : string -> World -> outcome unit * World.

Implicit Types p : Process Population World.

(** However the first loop of [end] leaves, it has not touched
    [simulator.state] or the warnings, and it has performed the writes
    of an initial part of the pending list. *)
Lemma write_loop_frame (pending : list (pending_write Population)) :
  ∀ p r p',
    for_each pending
      (fun '(population, variables, filename) =>
         run logger_debug (label population +:+ py_str variables +:+ " --> " +:+ filename);
         do io <- external (recording_get_io filename) (fun _ => []);
         external (write_data population io variables)
                  (fun _ => [Wrote population variables filename])) p = (r, p') →
    simulator_state p' = simulator_state p
    ∧ warnings_emitted p' = warnings_emitted p
    ∧ ∃ n, effects p' = effects p ++ writes_of (take n pending).
Proof.
  induction pending as [|[[population variables] filename] rest IH]; intros p r p' Hrun.
  - cbn in Hrun. inversion Hrun; subst. split; [done|]. split; [done|].
    exists 0. cbn. by rewrite app_nil_r.
  - cbn [for_each] in Hrun. unfold bind at 1 in Hrun.
    unfold bind at 1, logger_debug at 1, modify at 1 in Hrun.
    unfold bind at 1, external at 1 in Hrun. cbn [world] in Hrun.
    destruct (recording_get_io filename (world p)) as [[io|e] wa].
    + unfold external at 1 in Hrun. cbn [world] in Hrun.
      destruct (write_data population io variables wa) as [[[]|e] wb].
      * apply IH in Hrun as (-> & -> & n & ->). cbn.
        split; [done|]. split; [done|]. exists (S n). cbn.
        by rewrite !app_nil_r, <- !app_assoc.
      * inversion Hrun; subst. cbn. split; [done|]. split; [done|].
        exists 0. cbn. by rewrite !app_nil_r.
    + inversion Hrun; subst. cbn. split; [done|]. split; [done|].
      exists 0. cbn. by rewrite !app_nil_r.
Qed.

(** The same for the second loop and the removals. *)
Lemma removal_loop_frame (dirs : list string) :
  ∀ p r p',
    for_each dirs
      (fun tempdir => external (shutil_rmtree tempdir) (fun _ => [Removed tempdir])) p
    = (r, p') →
    simulator_state p' = simulator_state p
    ∧ warnings_emitted p' = warnings_emitted p
    ∧ ∃ n, effects p' = effects p ++ removals_of (take n dirs).
Proof.
  induction dirs as [|tempdir rest IH]; intros p r p' Hrun.
  - cbn in Hrun. inversion Hrun; subst. split; [done|]. split; [done|].
    exists 0. cbn. by rewrite app_nil_r.
  - cbn [for_each] in Hrun. unfold bind at 1, external at 1 in Hrun.
    destruct (shutil_rmtree tempdir (world p)) as [[[]|e] wa].
    + apply IH in Hrun as (-> & -> & n & ->). cbn.
      split; [done|]. split; [done|]. exists (S n). cbn. by rewrite <- !app_assoc.
    + inversion Hrun; subst. cbn. split; [done|]. split; [done|].
      exists 0. cbn. by rewrite !app_nil_r.
Qed.

(** With nothing pending and no temporary directory, [end] is a no-op. *)
Lemma end_without_work p :
  write_on_end (simulator_state p) = [] →
  tempdirs (simulator_state p) = [] →
  end_ label py_str recording_get_io write_data shutil_rmtree p = (Ok tt, p).
Proof.
  intros Hpending Hdirs.
  pose proof (end_run _ label _ _ py_str recording_get_io write_data shutil_rmtree p)
    as Hrun.
  rewrite Hpending, Hdirs in Hrun.
  cbn [world_after_writes world_after_removals] in Hrun.
  rewrite Hrun. f_equal. unfold ended. rewrite Hpending, Hdirs. cbn.
  rewrite !app_nil_r. destruct p as [st ws dl es w]. destruct st. cbn in *.
  by subst.
Qed.

(** X15. When [end] raises, [simulator.state] is as it was: neither
    list is cleared, whichever call failed, and what the writes that
    did succeed wrote stays pending. *)
Theorem end_failure_keeps_lists p e p' :
  end_ label py_str recording_get_io write_data shutil_rmtree p = (Raise e, p') →
  simulator_state p' = simulator_state p
  ∧ write_on_end (simulator_state p') = write_on_end (simulator_state p)
  ∧ tempdirs (simulator_state p') = tempdirs (simulator_state p).
Proof.
  intros Hrun.
  assert (simulator_state p' = simulator_state p) as Hst; [|by rewrite Hst].
  unfold end_ in Hrun. unfold bind at 1, gets at 1 in Hrun. unfold bind at 1 in Hrun.
  match type of Hrun with context [for_each ?l ?body p] =>
    destruct (for_each l body p) as [[[]|e1] p1] eqn:Hw end.
  - apply write_loop_frame in Hw as (Hst1 & _).
    unfold bind at 1, gets at 1 in Hrun. unfold bind at 1 in Hrun.
    match type of Hrun with context [for_each ?l ?body p1] =>
      destruct (for_each l body p1) as [[[]|e2] p2] eqn:Hr end.
    + cbn in Hrun. discriminate.
    + apply removal_loop_frame in Hr as (Hst2 & _).
      inversion Hrun; subst. congruence.
  - apply write_loop_frame in Hw as (Hst1 & _). inversion Hrun; subst. done.
Qed.

(** X16. When a handler or a write raises, [end] raises the same
    exception and removes no temporary directory: all it has done is
    an initial part of the pending writes. *)
Theorem end_failed_write_removes_nothing p e :
  world_after_writes recording_get_io write_data
    (write_on_end (simulator_state p)) (world p) = Raise e →
  ∃ p' n,
    end_ label py_str recording_get_io write_data shutil_rmtree p = (Raise e, p')
    ∧ effects p' = effects p ++ writes_of (take n (write_on_end (simulator_state p))).
Proof.
  intros Hfail.
  pose proof (write_loop_run _ label _ _ py_str recording_get_io write_data
                (write_on_end (simulator_state p)) p) as Hw.
  rewrite Hfail in Hw. destruct Hw as [p' Hw].
  destruct (write_loop_frame _ _ _ _ Hw) as (_ & _ & n & Heff).
  exists p', n. split; [|done].
  unfold end_. unfold bind at 1, gets at 1. unfold bind at 1. by rewrite Hw.
Qed.

(** X17. A second [end] after one that returned does nothing: no write,
    no removal, the same process. *)
Theorem end_twice p p' :
  end_ label py_str recording_get_io write_data shutil_rmtree p = (Ok tt, p') →
  end_ label py_str recording_get_io write_data shutil_rmtree p' = (Ok tt, p').
Proof.
  intros Hrun.
  pose proof (end_run _ label _ _ py_str recording_get_io write_data shutil_rmtree p)
    as Hp.
  destruct (world_after_writes recording_get_io write_data
              (write_on_end (simulator_state p)) (world p)) as [w1|e1].
  - destruct (world_after_removals shutil_rmtree (tempdirs (simulator_state p)) w1)
      as [w2|e2].
    + rewrite Hp in Hrun. inversion Hrun; subst p'. by apply end_without_work.
    + destruct Hp as [q Hq]. rewrite Hq in Hrun. discriminate.
  - destruct Hp as [q Hq]. rewrite Hq in Hrun. discriminate.
Qed.

End MoreEndFacts.

(** * [list_standard_models] *)

Section StandardModelsFacts.

Variable CellClass : Type.
Context `{EqDecision CellClass}.
Variable class_name : CellClass -> string.
Variable World : Type.
Variable create_instance : CellClass -> World -> outcome unit * World.
Variable exn_str : exn -> string.

Implicit Types c : Console World.
Implicit Types l : list CellClass.

(** Removing the element found at an index always succeeds; it takes
    one element out, and in a list without repetitions the one at that
    index. *)
Lemma list_remove_at l :
  ∀ i a, l !! i = Some a →
    ∃ l1, list_remove a l = Ok l1
          ∧ length l = S (length l1)
          ∧ sublist l1 l
          ∧ (∀ y, y ∈ l → y ≠ a → y ∈ l1)
          ∧ (NoDup l → take i l1 = take i l).
Proof.
  induction l as [|y rest IH]; intros i a Hi; [done|].
  cbn [list_remove]. destruct (decide (y = a)) as [->|Hne].
  - exists rest. split; [done|]. split; [done|]. split; [by apply sublist_cons|].
    split.
    + intros z Hz Hza. apply elem_of_cons in Hz as [?|?]; [congruence|done].
    + intros Hnd. apply NoDup_cons in Hnd as [Hfresh _].
      destruct i as [|j]; [done|]. cbn in Hi. destruct Hfresh.
      by apply list_elem_of_lookup_2 in Hi.
  - destruct i as [|j]; [cbn in Hi; congruence|]. cbn in Hi.
    destruct (IH j a Hi) as (r1 & -> & Hlen & Hsub & Hkeep & Htake).
    exists (y :: r1). split; [done|]. split; [cbn; lia|].
    split; [by apply sublist_skip|]. split.
    + intros z Hz Hza. apply elem_of_cons in Hz as [->|Hz]; [by left|].
      right. by apply Hkeep.
    + intros Hnd. apply NoDup_cons in Hnd as [_ Hnd]. cbn. by rewrite Htake.
Qed.

(** What every run of the loop does: it returns, keeps a sublist,
    prints one line per class it drops, drops only classes whose
    creation raised, and, in a list without repetitions, never drops
    what lies before the index. *)
Lemma list_standard_models_loop_spec fuel :
  ∀ i l c,
    ∃ l' c',
      list_standard_models_loop class_name create_instance exn_str fuel i l c = (Ok l', c')
      ∧ sublist l' l
      ∧ (length l' + length (printed c') = length l + length (printed c))%nat
      ∧ (∀ x, x ∈ l → x ∉ l' → ∃ w e, (create_instance x w).1 = Raise e)
      ∧ (NoDup l → ∀ x, x ∈ take i l → x ∈ l').
Proof.
  induction fuel as [|fuel IH]; intros i l c.
  - exists l, c. cbn. split; [done|]. split; [done|]. split; [done|]. split; [done|].
    intros _ x Hx. apply elem_of_take in Hx as (j & Hj & _).
    by apply list_elem_of_lookup_2 in Hj.
  - cbn [list_standard_models_loop].
    destruct (l !! i) as [a|] eqn:Hi.
    + unfold bind at 1, except_Exception. unfold bind at 1, create at 1.
      destruct (create_instance a (engine c)) as [[[]|e] w] eqn:Hcreate.
      * unfold ret at 1.
        destruct (IH (S i) l {| printed := printed c; engine := w |})
          as (l' & c' & -> & Hsub & Hlen & Hdrop & Hkeep).
        exists l', c'. split; [done|]. split; [done|]. split; [done|]. split; [done|].
        intros Hnd x Hx. apply (Hkeep Hnd).
        apply elem_of_take in Hx as (j & Hj & Hlt). apply elem_of_take. exists j.
        split; [done|lia].
      * unfold bind at 1, print at 1, modify at 1, lift at 1.
        destruct (list_remove_at l i a Hi) as (l1 & -> & Hlen1 & Hsub1 & Hkeep1 & Htake1).
        cbn [printed engine].
        destruct (IH (S i) l1 {| printed := printed c ++ [not_creatable class_name exn_str a e];
                                 engine := w |})
          as (l' & c' & -> & Hsub & Hlen & Hdrop & Hkeep).
        exists l', c'. split; [done|]. split; [by etrans|]. split.
        { cbn in Hlen. rewrite length_app in Hlen. cbn in Hlen. lia. }
        split.
        -- intros x Hx Hout. destruct (decide (x = a)) as [->|Hne].
           ++ exists (engine c), e. by rewrite Hcreate.
           ++ apply Hdrop; [|done]. by apply Hkeep1.
        -- intros Hnd x Hx. apply Hkeep; [by eapply sublist_NoDup|].
           rewrite <- (Htake1 Hnd) in Hx.
           apply elem_of_take in Hx as (j & Hj & Hlt). apply elem_of_take. exists j.
           split; [done|lia].
    + exists l, c. unfold ret. split; [done|]. split; [done|]. split; [done|].
      split; [done|].
      intros _ x Hx. apply elem_of_take in Hx as (j & Hj & _).
      by apply list_elem_of_lookup_2 in Hj.
Qed.

Lemma bind_run {S A B} (m : M S A) (k : A -> M S B) (s : S) :
  bind m k s = match m s with
               | (Ok a, s') => k a s'
               | (Raise e, s') => (Raise e, s')
               end.
Proof. reflexivity. Qed.

(** One turn of the loop body never raises and never makes the list
    longer. *)
Lemma try_create_run l i a c :
  l !! i = Some a →
  ∃ remaining c',
    except_Exception
      (run create create_instance a; ret l)
      (fun e =>
         run print (not_creatable class_name exn_str a e);
         lift (list_remove a l)) c = (Ok remaining, c')
    ∧ (length remaining ≤ length l)%nat.
Proof.
  intros Hi. unfold except_Exception. rewrite bind_run. unfold create at 1.
  destruct (create_instance a (engine c)) as [[[]|e] w].
  - unfold ret. eauto.
  - rewrite bind_run. unfold print, modify, lift.
    destruct (list_remove_at l i a Hi) as (l1 & -> & Hlen1 & _).
    eexists _, _. split; [done|]. lia.
Qed.

(** One unit of fuel per remaining element is enough: with that much
    the loop ends because the index has passed the end of the list, and
    more fuel changes nothing. *)
Lemma list_standard_models_loop_fuel (fuel1 : nat) :
  ∀ (fuel2 i : nat) l c,
    (length l - i ≤ fuel1)%nat → (length l - i ≤ fuel2)%nat →
    list_standard_models_loop class_name create_instance exn_str fuel1 i l c
    = list_standard_models_loop class_name create_instance exn_str fuel2 i l c.
Proof.
  induction fuel1 as [|fuel1 IH]; intros fuel2 i l c H1 H2.
  - assert (l !! i = None) as Hi by (apply lookup_ge_None; lia).
    destruct fuel2; cbn; by rewrite ?Hi.
  - cbn [list_standard_models_loop].
    destruct (l !! i) as [a|] eqn:Hi.
    + pose proof (lookup_lt_Some _ _ _ Hi) as Hlt.
      destruct fuel2 as [|fuel2]; [lia|].
      cbn [list_standard_models_loop]. rewrite Hi, !bind_run.
      destruct (try_create_run l i a c Hi) as (remaining & c' & -> & Hlen).
      apply IH; lia.
    + destruct fuel2; cbn; by rewrite ?Hi.
Qed.

(** When every class can be created the loop keeps the list as it is
    and prints nothing. *)
Lemma list_standard_models_loop_all_creatable fuel :
  ∀ i l c,
    (∀ x w, x ∈ l → (create_instance x w).1 = Ok tt) →
    ∃ c', list_standard_models_loop class_name create_instance exn_str fuel i l c
          = (Ok l, c')
          ∧ printed c' = printed c.
Proof.
  induction fuel as [|fuel IH]; intros i l c Hall; [by exists c|].
  cbn [list_standard_models_loop].
  destruct (l !! i) as [a|] eqn:Hi; [|by exists c].
  rewrite bind_run. unfold except_Exception. rewrite bind_run. unfold create at 1.
  pose proof (Hall a (engine c) (list_elem_of_lookup_2 _ _ _ Hi)) as Ha.
  destruct (create_instance a (engine c)) as [r w]. cbn in Ha. subst r.
  unfold ret at 1.
  destruct (IH (S i) l {| printed := printed c; engine := w |} Hall) as (c' & -> & Hp).
  by exists c'.
Qed.

(** X18. [list_standard_models] never raises, whatever creating a class
    does. The names it returns are those of a sublist of the classes it
    started from, in their order; it prints one line per class it
    dropped; and a class that is missing from the result is one whose
    creation raised. *)
Theorem list_standard_models_never_raises l c :
  ∃ kept c',
    list_standard_models class_name create_instance exn_str l c
    = (Ok (class_name <$> kept), c')
    ∧ sublist kept l
    ∧ (length kept + length (printed c') = length l + length (printed c))%nat
    ∧ (∀ x, x ∈ l → x ∉ kept → ∃ w e, (create_instance x w).1 = Raise e).
Proof.
  destruct (list_standard_models_loop_spec (length l) 0 l c)
    as (kept & c' & Hloop & Hsub & Hlen & Hdrop & _).
  exists kept, c'. split; [|done].
  unfold list_standard_models. rewrite bind_run, Hloop. reflexivity.
Qed.

(** X19. When every class can be created, [list_standard_models]
    returns the name of each of them, in order, and prints nothing. *)
Theorem list_standard_models_all_creatable l c :
  (∀ x w, x ∈ l → (create_instance x w).1 = Ok tt) →
  ∃ c', list_standard_models class_name create_instance exn_str l c
        = (Ok (class_name <$> l), c')
        ∧ printed c' = printed c.
Proof.
  intros Hall.
  destruct (list_standard_models_loop_all_creatable (length l) 0 l c Hall)
    as (c' & Hloop & Hp).
  exists c'. split; [|done].
  unfold list_standard_models. rewrite bind_run, Hloop. reflexivity.
Qed.

(** X20. Removing a class from the list while the loop runs over it
    makes the loop step over the next one: when creating the first class
    raises, the second is in the result, whether it can be created or
    not, and the first is not. *)
Theorem list_standard_models_skips_after_failure a b rest c e :
  NoDup (a :: b :: rest) →
  (create_instance a (engine c)).1 = Raise e →
  ∃ kept c',
    list_standard_models class_name create_instance exn_str (a :: b :: rest) c
    = (Ok (class_name <$> kept), c')
    ∧ b ∈ kept
    ∧ a ∉ kept.
Proof.
  intros Hnd Hfail.
  apply NoDup_cons in Hnd as [Ha Hnd].
  unfold list_standard_models. rewrite bind_run.
  cbn [length]. generalize (S (length rest)). intros fuel.
  cbn [list_standard_models_loop lookup list_lookup].
  rewrite bind_run. unfold except_Exception. rewrite bind_run. unfold create at 1.
  destruct (create_instance a (engine c)) as [r w]. cbn in Hfail. subst r.
  rewrite bind_run. unfold print at 1, modify at 1, lift at 1.
  cbn [list_remove]. rewrite decide_True by done.
  match goal with |- context [list_standard_models_loop _ _ _ fuel ?i ?l1 ?c1] =>
    destruct (list_standard_models_loop_spec fuel i l1 c1)
      as (kept & c' & -> & Hsub & _ & _ & Hkeep) end.
  exists kept, c'. split; [done|]. split.
  - apply (Hkeep Hnd). cbn. by left.
  - intros Hin. apply Ha. by eapply elem_of_sublist.
Qed.

End StandardModelsFacts.

(** ** The remaining functions on the example engine and session *)

Lemma describe_ht_neuron :
  Example.describe_ht "ht_neuron" = (Ok Example.ht_neuron_type, []).
Proof. vm_compute. reflexivity. Defined.

Lemma engine_error_propagates_witness :
  Example.GetDefaults "no_such_model" = Raise (NESTError "UnknownModelName")
  ∧ Example.describe "no_such_model" = (Raise (NESTError "UnknownModelName"), []).
Proof.
  split; [reflexivity|].
  exact (proj2 (proj2 (engine_error_propagates Example.GetDefaults
                         Example.GetDefaults_recordables Example.GetDefaults_element_type
                         Example.make_pynn_compatible "no_such_model"
                         (NESTError "UnknownModelName") [] eq_refl))).
Defined.

Lemma get_recordables_passes_through_witness :
  get_recordables Example.GetDefaults_recordables "iaf_psc_alpha" []
  = (Ok ["I_syn_ex"; "V_m"; "trace"], [])
  ∧ get_recordables Example.GetDefaults_recordables_broken "iaf_psc_alpha" []
    = (Raise (TypeError "'NoneType' object is not iterable"), []).
Proof.
  split.
  - exact (proj1 (get_recordables_passes_through Example.GetDefaults_recordables
                    "iaf_psc_alpha" []) _ eq_refl).
  - apply (proj2 (get_recordables_passes_through Example.GetDefaults_recordables_broken
                    "iaf_psc_alpha" [])); [reflexivity|].
    intros msg. discriminate.
Defined.

Lemma parameters_and_initial_values_apart_witness :
  default_initial_values Example.iaf_psc_alpha_type !! "C_m" = None
  ∧ "C_m" ∈ dict_keys Example.iaf_psc_alpha_defaults.
Proof.
  apply (parameters_and_initial_values_apart Example.GetDefaults
           Example.GetDefaults_recordables Example.GetDefaults_element_type
           Example.make_pynn_compatible "iaf_psc_alpha" [] _ _
           Example.iaf_psc_alpha_defaults describe_iaf_psc_alpha eq_refl "C_m").
  eexists. vm_compute. reflexivity.
Defined.

Lemma injectable_iff_V_m_recordable_witness :
  injectable Example.iaf_psc_alpha_type = true.
Proof.
  apply (injectable_iff_V_m_recordable Example.GetDefaults
           Example.GetDefaults_recordables Example.GetDefaults_element_type
           Example.make_pynn_compatible "iaf_psc_alpha" [] _ _
           Example.iaf_psc_alpha_defaults describe_iaf_psc_alpha eq_refl).
  split; [|reflexivity].
  apply (bool_decide_unpack _). vm_compute. reflexivity.
Defined.

Lemma conductance_based_iff_g_recordable_witness :
  conductance_based Example.ht_neuron_type = true.
Proof.
  apply (conductance_based_iff_g_recordable Example.GetDefaults_ht
           Example.GetDefaults_recordables_ht Example.GetDefaults_element_type_ht
           Example.make_pynn_compatible "ht_neuron" [] _ _ ["V_m"; "g_AMPA"]
           describe_ht_neuron eq_refl).
  exists "g_AMPA". split.
  - rewrite !elem_of_cons. tauto.
  - by exists "_AMPA".
Defined.

Lemma receptor_types_reported_or_standard_witness :
  (receptor_types Example.poisson_generator_type
   = [VStr "excitatory"; VStr "inhibitory"]
   ∧ standard_receptor_type Example.poisson_generator_type = true)
  ∧ receptor_types Example.ht_neuron_type
    = [VStr "AMPA"; VStr "NMDA"; VStr "GABA_A"; VStr "GABA_B"].
Proof.
  split.
  - exact (proj1 (receptor_types_reported_or_standard Example.GetDefaults
                    Example.GetDefaults_recordables Example.GetDefaults_element_type
                    Example.make_pynn_compatible "poisson_generator" [] _ _
                    Example.poisson_generator_defaults describe_poisson_generator eq_refl)
             eq_refl).
  - exact (proj1 (proj2 (receptor_types_reported_or_standard Example.GetDefaults_ht
                           Example.GetDefaults_recordables_ht
                           Example.GetDefaults_element_type_ht
                           Example.make_pynn_compatible "ht_neuron" [] _ _
                           Example.ht_neuron_defaults describe_ht_neuron eq_refl)
                    _ eq_refl)).
Defined.

Lemma get_receptor_type_resolves_listed_witness :
  get_receptor_type Example.GetDefaults_ht Example.ht_neuron_type "NMDA" []
  = (Ok (VInt 2), [])
  ∧ get_receptor_type Example.GetDefaults_ht Example.ht_neuron_type "excitatory" []
    = (Raise (KeyError "excitatory"), []).
Proof.
  split.
  - destruct (proj1 (get_receptor_type_resolves_listed Example.GetDefaults_ht
                       Example.GetDefaults_recordables_ht
                       Example.GetDefaults_element_type_ht
                       Example.make_pynn_compatible "ht_neuron" [] _ _
                       Example.ht_neuron_defaults _ "NMDA" []
                       describe_ht_neuron eq_refl eq_refl))
      as (v & Hv & Hget).
    + cbn. rewrite !elem_of_cons. tauto.
    + vm_compute in Hv. inversion Hv; subst v. exact Hget.
  - apply (proj2 (get_receptor_type_resolves_listed Example.GetDefaults_ht
                    Example.GetDefaults_recordables_ht
                    Example.GetDefaults_element_type_ht
                    Example.make_pynn_compatible "ht_neuron" [] _ _
                    Example.ht_neuron_defaults _ "excitatory" []
                    describe_ht_neuron eq_refl eq_refl)).
    cbn. rewrite !elem_of_cons, elem_of_nil. intros H.
    repeat destruct H as [H|H]; try discriminate H. exact H.
Defined.

Lemma get_receptor_type_without_engine_entry_witness :
  receptor_types Example.iaf_psc_alpha_type = [VStr "excitatory"; VStr "inhibitory"]
  ∧ get_receptor_type Example.GetDefaults Example.iaf_psc_alpha_type "excitatory" []
    = (Raise (KeyError "receptor_types"), []).
Proof.
  destruct (get_receptor_type_without_engine_entry Example.GetDefaults
              Example.GetDefaults_recordables Example.GetDefaults_element_type
              Example.make_pynn_compatible "iaf_psc_alpha" [] _ _
              Example.iaf_psc_alpha_defaults describe_iaf_psc_alpha eq_refl eq_refl)
    as [Hlist Hget].
  split; [exact Hlist|exact (Hget "excitatory" [])].
Defined.

Lemma setup_seed_precedence_witness :
  attrs (simulator_state
           (Example.run_setup 0.1 (VStr "auto")
              [("rng_seeds_seed", VInt 4); ("rng_seed", VInt 7)]).2) !! "rng_seed"
  = Some (VInt 4)
  ∧ attrs (simulator_state
             (Example.run_setup 0.1 (VStr "auto")
                [("grng_seed", VInt 4); ("rng_seed", VInt 7)]).2) !! "rng_seed"
    = Some (VInt 7).
Proof.
  assert (Example.run_setup 0.1 (VStr "auto")
            [("rng_seeds_seed", VInt 4); ("rng_seed", VInt 7)]
          = (Ok (VInt 0),
             (Example.run_setup 0.1 (VStr "auto")
                [("rng_seeds_seed", VInt 4); ("rng_seed", VInt 7)]).2))
    as Hrun1 by (vm_compute; reflexivity).
  assert (Example.run_setup 0.1 (VStr "auto")
            [("grng_seed", VInt 4); ("rng_seed", VInt 7)]
          = (Ok (VInt 0),
             (Example.run_setup 0.1 (VStr "auto")
                [("grng_seed", VInt 4); ("rng_seed", VInt 7)]).2))
    as Hrun2 by (vm_compute; reflexivity).
  split.
  - exact (proj1 (setup_seed_precedence string (list string) (VFloat 10)
                    (fun _ _ _ => Ok tt) Example.clear (fun _ => VInt 0)
                    Example.SetDefaults_ok Example.state_check 0.1%float (VStr "auto")
                    [("rng_seeds_seed", VInt 4); ("rng_seed", VInt 7)]
                    Example.fresh _ _ Hrun1) (VInt 4) eq_refl).
  - exact (proj1 (proj2 (setup_seed_precedence string (list string) (VFloat 10)
                           (fun _ _ _ => Ok tt) Example.clear (fun _ => VInt 0)
                           Example.SetDefaults_ok Example.state_check 0.1%float
                           (VStr "auto") [("grng_seed", VInt 4); ("rng_seed", VInt 7)]
                           Example.fresh _ _ Hrun2)) eq_refl (VInt 7) eq_refl).
Defined.

Lemma setup_rejected_leaves_session_witness :
  Example.run_setup_rejected 0.1 (VFloat 0.01) []
  = (Raise (OtherException "min_delay must be >= timestep"), Example.recorded).
Proof.
  exact (setup_rejected_leaves_session string (list string) (VFloat 10)
           (fun _ _ _ => Raise (OtherException "min_delay must be >= timestep"))
           Example.clear (fun _ => VInt 0) Example.SetDefaults_ok Example.state_check
           0.1%float (VFloat 0.01) [] (OtherException "min_delay must be >= timestep")
           Example.recorded eq_refl).
Defined.


Lemma setup_thread_count_witness :
  attrs (simulator_state
           (Example.run_setup 0.1 (VStr "auto") [("threads", VInt 4)]).2) !! "num_threads"
  = Some (VInt 4)
  ∧ attrs (simulator_state (Example.run_setup 0.1 (VStr "auto") []).2) !! "num_threads"
    = Some (VInt 1).
Proof.
  assert (Example.run_setup 0.1 (VStr "auto") [("threads", VInt 4)]
          = (Ok (VInt 0), (Example.run_setup 0.1 (VStr "auto") [("threads", VInt 4)]).2))
    as Hrun1 by (vm_compute; reflexivity).
  assert (Example.run_setup 0.1 (VStr "auto") []
          = (Ok (VInt 0), (Example.run_setup 0.1 (VStr "auto") []).2))
    as Hrun2 by (vm_compute; reflexivity).
  split.
  - exact (proj2 (setup_thread_count string (list string) (VFloat 10)
                    (fun _ _ _ => Ok tt) Example.clear (fun _ => VInt 0)
                    Example.SetDefaults_ok Example.state_check 0.1%float (VStr "auto")
                    [("threads", VInt 4)] Example.fresh _ _ Hrun1)
             (VInt 4) eq_refl eq_refl).
  - exact (proj1 (setup_thread_count string (list string) (VFloat 10)
                    (fun _ _ _ => Ok tt) Example.clear (fun _ => VInt 0)
                    Example.SetDefaults_ok Example.state_check 0.1%float (VStr "auto")
                    [] Example.fresh _ _ Hrun2) eq_refl).
Defined.


Lemma end_failure_keeps_lists_witness :
  (Example.run_end Example.unwritable).1
  = Raise (OtherException "file extension not supported")
  ∧ write_on_end (simulator_state (Example.run_end Example.unwritable).2)
    = [("exc", VList [VStr "spikes"], "")]
  ∧ tempdirs (simulator_state (Example.run_end Example.unwritable).2) = ["/tmp/pynn_a"].
Proof.
  split; [vm_compute; reflexivity|].
  apply (end_failure_keeps_lists string (fun population => population) string
           (list string) Example.str Example.get_io Example.write_data Example.rmtree
           Example.unwritable (OtherException "file extension not supported")
           (Example.run_end Example.unwritable).2).
  vm_compute. reflexivity.
Defined.

Lemma end_failed_write_removes_nothing_witness :
  ∃ p' n,
    Example.run_end Example.unwritable
    = (Raise (OtherException "file extension not supported"), p')
    ∧ effects p' = writes_of (take n [("exc", VList [VStr "spikes"], "")]).
Proof.
  exact (end_failed_write_removes_nothing string (fun population => population) string
           (list string) Example.str Example.get_io Example.write_data Example.rmtree
           Example.unwritable (OtherException "file extension not supported") eq_refl).
Defined.

Lemma end_twice_witness :
  Example.run_end Example.recorded = (Ok tt, Example.flushed)
  ∧ Example.run_end Example.flushed = (Ok tt, Example.flushed).
Proof.
  assert (Example.run_end Example.recorded = (Ok tt, Example.flushed)) as Hrun
    by (vm_compute; reflexivity).
  split; [exact Hrun|].
  exact (end_twice string (fun population => population) string (list string)
           Example.str Example.get_io Example.write_data Example.rmtree
           Example.recorded Example.flushed Hrun).
Defined.

Lemma list_standard_models_all_creatable_witness :
  ∃ c', Example.run_list_standard_models ["IF_curr_exp"; "IF_cond_exp"]
        = (Ok ["IF_curr_exp"; "IF_cond_exp"], c')
        ∧ printed c' = [].
Proof.
  apply (list_standard_models_all_creatable string (fun cell_class => cell_class)
           (list string) Example.create_instance Example.exn_str
           ["IF_curr_exp"; "IF_cond_exp"] Example.console).
  intros x w Hx. rewrite !elem_of_cons, elem_of_nil in Hx.
  destruct Hx as [->|[->|[]]]; reflexivity.
Defined.

Lemma list_standard_models_skips_after_failure_witness :
  ∃ kept c',
    Example.run_list_standard_models ["X_broken"; "X_also_broken"; "IF_curr_exp"]
    = (Ok ((fun cell_class => cell_class) <$> kept), c')
    ∧ "X_also_broken" ∈ kept
    ∧ "X_broken" ∉ kept.
Proof.
  apply (list_standard_models_skips_after_failure string (fun cell_class => cell_class)
           (list string) Example.create_instance Example.exn_str
           "X_broken" "X_also_broken" ["IF_curr_exp"] Example.console
           (OtherException "X_broken is not available")).
  - apply (bool_decide_unpack _). vm_compute. reflexivity.
  - reflexivity.
Defined.
